(** * ColabFold local MMseqs2 pipelines: a shallow embedding

    The development follows the two modules of [colabfold/mmseqs]:
    [search_monomer.py] (query normalisation in [main], the monomer pipeline
    [mmseqs_search_monomer]) and [search_pair.py] (a second copy of
    [run_mmseqs] and [mmseqs_search_monomer], and the pairing pipeline
    [mmseqs_search_pair]).

    Python values are kept dynamically typed ([pyval]); the external world
    (file system, the [mmseqs] binary) is reached through a [handler] and
    every interaction is recorded in a trace. *)

From Stdlib Require Import ZArith Lia DecimalString.
From Stdlib Require Import Floats.PrimFloat.
From Stdlib Require Floats.FloatOps.
From stdpp Require Import base option list strings gmap.

Local Open Scope Z_scope.

(* Decimal float literals denote the nearest binary64 value, as in Python. *)
Set Warnings "-inexact-float".

(** ** Python values *)

(** The values that reach the pipelines: [None], booleans, integers, floats
    (IEEE binary64, as in CPython) and opaque objects such as modules,
    functions and loggers, of which only the identity matters here. *)
Inductive pyval :=
| PyNone
| PyBool (b : bool)
| PyInt (z : Z)
| PyFloat (f : float)
| PyObject (tag : string).

(** Truth value testing, as performed by [if x:]. *)
Definition py_truthy (v : pyval) : bool :=
  match v with
  | PyNone => false
  | PyBool b => b
  | PyInt z => negb (z =? 0)
  | PyFloat f => negb (PrimFloat.eqb f 0%float)
  | PyObject _ => true
  end.

(** [str(n)] for an integer. *)
Definition str_int (z : Z) : string := NilZero.string_of_int (Z.to_int z).

(** The parts of the Python runtime the modules call and whose algorithms
    are not part of this repository: [repr] of a float,
    ["{:.1f}".format], [str] of an opaque object and [pathlib]'s
    [joinpath].  A path is represented by its [str()] form. *)
Abbreviation path := string.

Record runtime := {
  float_repr : float -> string;
  format_1f : pyval -> string;
  object_str : string -> string;
  joinpath : path -> string -> path
}.

Inductive exn :=
| NameError (name : string)
| UnboundLocalError (name : string)
| FileNotFoundError (msg : string)
| CalledProcessError (returncode : Z) (cmd : list string)
| OSError (msg : string)
| ValueError
| IndexError
| IndentationError (msg : string) (lineno : nat).

(** Results of fallible pure code. *)
Definition result (A : Type) : Type := exn + A.

Definition ok {A} (a : A) : result A := inr a.
Definition err {A} (e : exn) : result A := inl e.

Definition rbind {A B} (m : result A) (k : A -> result B) : result B :=
  match m with
  | inl e => inl e
  | inr a => k a
  end.

(** ** Query normalisation ([main], search_monomer.py lines 191-219) *)

(** An entry of [queries] as [get_queries] returns it:
    [(raw_jobname, query_sequences, a3m_lines)], where [query_sequences] is
    a single string or a list of strings. *)
Inductive seqs_field :=
| OneSeq (s : string)
| ManySeqs (l : list string).

Record query := {
  q_raw_jobname : string;
  q_query_sequences : seqs_field;
  q_a3m_lines : option (list string)
}.

(** An entry of [queries_unique]:
    [[raw_jobname, query_seqs_unique, query_seqs_cardinality]]. *)
Record job := {
  raw_jobname : string;
  query_seqs_unique : list string;
  query_seqs_cardinality : list Z
}.

(** [[query_sequences] if isinstance(query_sequences, str) else query_sequences] *)
Definition as_sequence_list (q : seqs_field) : list string :=
  match q with
  | OneSeq s => [s]
  | ManySeqs l => l
  end.

(** [for x in query_sequences: if x not in acc: acc.append(x)] *)
Fixpoint unique_loop (xs acc : list string) : list string :=
  match xs with
  | [] => acc
  | x :: xs' =>
      if bool_decide (x ∈ acc) then unique_loop xs' acc
      else unique_loop xs' (acc ++ [x])
  end.

(** [list.index]: position of the first occurrence, [None] standing for the
    [ValueError] Python raises when there is none. *)
Fixpoint list_index (x : string) (l : list string) : option nat :=
  match l with
  | [] => None
  | y :: l' => if bool_decide (x = y) then Some 0%nat else S <$> list_index x l'
  end.

(** [for seq in query_sequences: seq_idx = uniq.index(seq); card[seq_idx] += 1] *)
Fixpoint cardinality_loop (seqs uniq : list string) (card : list Z)
  : result (list Z) :=
  match seqs with
  | [] => ok card
  | seq :: rest =>
      match list_index seq uniq with
      | None => err ValueError
      | Some seq_idx =>
          match card !! seq_idx with
          | None => err IndexError
          | Some c => cardinality_loop rest uniq (<[seq_idx := c + 1]> card)
          end
      end
  end.

(** Body of the first loop of [main] for one query. *)
Definition normalize_query (q : query) : result job :=
  let query_sequences := as_sequence_list (q_query_sequences q) in
  let uniq := unique_loop query_sequences [] in
  rbind (cardinality_loop query_sequences uniq (replicate (length uniq) 0))
        (fun card => ok {| raw_jobname := q_raw_jobname q;
                           query_seqs_unique := uniq;
                           query_seqs_cardinality := card |}).

(** The loop itself: [queries_unique] in job order. *)
Fixpoint normalize_queries (queries : list query) : result (list job) :=
  match queries with
  | [] => ok []
  | q :: rest =>
      rbind (normalize_query q) (fun j =>
      rbind (normalize_queries rest) (fun js => ok (j :: js)))
  end.

(** [enumerate(l)], counting from [start]. *)
Fixpoint enumerate_from {A} (start : nat) (l : list A) : list (nat * A) :=
  match l with
  | [] => []
  | x :: l' => (start, x) :: enumerate_from (S start) l'
  end.

Definition enumerate {A} (l : list A) : list (nat * A) := enumerate_from 0 l.

(** The records written to [query.fas] for one job: header [101 + j] for
    the [j]-th sequence of the job. *)
Definition job_fasta_records (j : job) : list (Z * string) :=
  map (fun '(i, seq) => (101 + Z.of_nat i, seq)) (enumerate (query_seqs_unique j)).

(** All records of [query.fas], in the order they are written. *)
Definition query_fasta_records (queries_unique : list job) : list (Z * string) :=
  flat_map job_fasta_records queries_unique.

Definition tab : string := String (Ascii.ascii_of_nat 9) "".
Definition newline : string := String (Ascii.ascii_of_nat 10) "".

(** [f">{query_seq_headername}\n{seq}\n"] *)
Definition fasta_record_text (r : Z * string) : string :=
  ">" +:+ str_int (fst r) +:+ newline +:+ snd r +:+ newline.

(** The text of [query.fas]. *)
Definition query_fasta_text (queries_unique : list job) : string :=
  foldr String.append "" (map fasta_record_text (query_fasta_records queries_unique)).

(** The lines of [qdb.lookup]: [f"{id}\t{raw_jobname}\t{file_number}\n"],
    with [id] running over all sequences and [file_number] over jobs. *)
Fixpoint lookup_records (queries_unique : list job) (id file_number : Z)
  : list (Z * string * Z) :=
  match queries_unique with
  | [] => []
  | j :: rest =>
      map (fun '(i, _) => (id + Z.of_nat i, raw_jobname j, file_number))
          (enumerate (query_seqs_unique j))
      ++ lookup_records rest (id + Z.of_nat (length (query_seqs_unique j)))
                        (file_number + 1)
  end.

Definition lookup_record_text (r : Z * string * Z) : string :=
  let '(id, name, file_number) := r in
  str_int id +:+ tab +:+ name +:+ tab +:+ str_int file_number +:+ newline.

Definition lookup_text (queries_unique : list job) : string :=
  foldr String.append "" (map lookup_record_text (lookup_records queries_unique 0 0)).


(** ** The external world *)

(** What a run does to the outside, in the order it happens. *)
Inductive event :=
| EvInfo (msg : string)                 (* logger.info *)
| EvIsFile (p : path)                   (* Path.is_file *)
| EvSpawn (argv : list string)          (* a child process, run to completion *)
| EvGlob (dir : path) (pattern : string)
| EvUnlink (p : path)
| EvRmtree (p : path)
| EvMkdir (p : path)
| EvWrite (p : path) (text : string).

(** The world answers each request and moves to a new state.  A child
    process either cannot be started (an exception) or ends with an exit
    status; file operations either succeed or raise. *)
Record handler (W : Type) := {
  is_file : path -> W -> bool;
  spawn : list string -> W -> result Z * W;
  glob : path -> string -> W -> list path;
  unlink : path -> W -> option exn * W;
  rmtree : path -> W -> option exn * W;
  mkdir : path -> W -> option exn * W;
  write_text : path -> string -> W -> option exn * W
}.

Arguments is_file {W}.
Arguments spawn {W}.
Arguments glob {W}.
Arguments unlink {W}.
Arguments rmtree {W}.
Arguments mkdir {W}.
Arguments write_text {W}.

(** The global namespace of a module: the dictionary in which a function
    body looks up the names that are neither its parameters nor its locals. *)
Abbreviation namespace := (gmap string pyval).

(** The names bound by the top-level statements of search_pair.py (its
    imports, [logger] and its three functions).  search_monomer.py binds the
    same names except [mmseqs_search_pair], and [main] in addition. *)
Definition module_globals : namespace :=
  list_to_map
    [ ("logging", PyObject "module logging");
      ("math", PyObject "module math");
      ("os", PyObject "module os");
      ("shutil", PyObject "module shutil");
      ("subprocess", PyObject "module subprocess");
      ("ArgumentParser", PyObject "class ArgumentParser");
      ("Path", PyObject "class Path");
      ("List", PyObject "typing.List");
      ("Union", PyObject "typing.Union");
      ("get_queries", PyObject "function get_queries");
      ("msa_to_str", PyObject "function msa_to_str");
      ("safe_filename", PyObject "function safe_filename");
      ("logger", PyObject "Logger");
      ("run_mmseqs", PyObject "function run_mmseqs");
      ("mmseqs_search_monomer", PyObject "function mmseqs_search_monomer");
      ("mmseqs_search_pair", PyObject "function mmseqs_search_pair") ].

(** Parameters of [mmseqs_search_monomer], as the caller binds them. *)
Record monomer_args := {
  m_dbbase : path;
  m_base : path;
  m_uniref_db : path;
  m_template_db : path;
  m_metagenomic_db : path;
  m_mmseqs : path;
  m_filter : pyval;
  m_expand_eval : pyval;
  m_align_eval : pyval;
  m_diff : pyval;
  m_qsc : pyval;
  m_max_accept : pyval;
  m_s : pyval;
  m_db_load_mode : pyval;
  m_threads : pyval
}.

(** Parameters of [mmseqs_search_pair]. *)
Record pair_args := {
  p_dbbase : path;
  p_base : path;
  p_uniref_db : path;
  p_mmseqs : path;
  p_s : pyval;
  p_threads : pyval;
  p_db_load_mode : pyval;
  p_pairing_strategy : pyval
}.

(** The variables a pipeline body assigns to after it has started: the
    three parameters the filter branch rebinds, [db_load_mode], and the two
    suffix locals, unbound until the database loop assigns them. *)
Record frame := {
  align_eval : pyval;
  qsc : pyval;
  max_accept : pyval;
  db_load_mode : pyval;
  dbSuffix1 : option string;
  dbSuffix2 : option string
}.

Definition set_index_absent (fr : frame) : frame :=
  {| align_eval := align_eval fr; qsc := qsc fr; max_accept := max_accept fr;
     db_load_mode := PyInt 0; dbSuffix1 := Some "_seq"; dbSuffix2 := Some "_aln" |}.

Definition set_index_present (fr : frame) : frame :=
  {| align_eval := align_eval fr; qsc := qsc fr; max_accept := max_accept fr;
     db_load_mode := db_load_mode fr; dbSuffix1 := Some ".idx"; dbSuffix2 := Some ".idx" |}.

(** [" ".join(l)] *)
Fixpoint str_join (sep : string) (l : list string) : string :=
  match l with
  | [] => ""
  | [x] => x
  | x :: l' => x +:+ sep +:+ str_join sep l'
  end.

(** One stage invocation: through [run_mmseqs] (checked) or through a bare
    [subprocess.run] (exit status ignored). *)
Inductive step :=
| Checked (params : list string)
| Unchecked (params : list string).

(** The namespace [args] that [parse_args] returns in [main]. *)
Record cli_args := {
  c_query : path;
  c_dbbase : path;
  c_base : path;
  c_s : pyval;
  c_db1 : path;
  c_db2 : path;
  c_db3 : path;
  c_filter : pyval;
  c_mmseqs : path;
  c_expand_eval : pyval;
  c_align_eval : pyval;
  c_diff : pyval;
  c_qsc : pyval;
  c_max_accept : pyval;
  c_pairing_strategy : pyval;
  c_db_load_mode : pyval;
  c_threads : pyval
}.

(** ** Block structure of the source files *)

(** A logical line of a source file: the number of its first physical line,
    the column of its first token, and whether it ends with a colon, that
    is, whether it is the header of a block. *)
Record logical_line := ll {
  ll_lineno : nat;
  ll_indent : nat;
  ll_header : bool
}.

(** Leaving blocks: the indentation must be one of the enclosing ones. *)
Fixpoint dedent_to (col : nat) (stack : list nat) : option (list nat) :=
  match stack with
  | [] => None
  | top :: rest =>
      if Nat.eqb col top then Some stack
      else if Nat.ltb top col then None
      else dedent_to col rest
  end.

(** Python's indentation rule: a deeper line is accepted only right after
    a block header, and a block header must be followed by a deeper line. *)
Fixpoint check_indentation (stack : list nat) (after_header : bool)
    (lines : list logical_line) : result unit :=
  match lines with
  | [] =>
      if after_header then err (IndentationError "expected an indented block" 0)
      else ok tt
  | l :: rest =>
      if Nat.ltb (hd 0%nat stack) (ll_indent l) then
        if after_header then
          check_indentation (ll_indent l :: stack) (ll_header l) rest
        else err (IndentationError "unexpected indent" (ll_lineno l))
      else if after_header then
        err (IndentationError "expected an indented block" (ll_lineno l))
      else
        match dedent_to (ll_indent l) stack with
        | None =>
            err (IndentationError
                   "unindent does not match any outer indentation level" (ll_lineno l))
        | Some stack' => check_indentation stack' (ll_header l) rest
        end
  end.

Definition compile_module (source : list logical_line) : result unit :=
  check_indentation [0%nat] false source.

(** The logical lines of search_monomer.py, comments and blank lines left
    out.  Line 186 is [queries, is_complex = get_queries(args.query, None)]
    at column 4; line 187 starts the string literal that follows it, at
    column 8. *)
Definition search_monomer_lines : list logical_line :=
  [
    ll 1 0 false; ll 15 0 false; ll 16 0 false; ll 17 0 false;
    ll 18 0 false; ll 19 0 false; ll 20 0 false; ll 21 0 false;
    ll 22 0 false; ll 24 0 false; ll 25 0 false; ll 27 0 false;
    ll 30 0 true; ll 31 4 false; ll 32 4 false; ll 33 4 false;
    ll 36 0 true; ll 55 4 false; ll 61 4 true; ll 64 8 false;
    ll 65 8 false; ll 66 8 false; ll 68 4 false; ll 69 4 true;
    ll 70 8 false; ll 71 4 true; ll 72 8 false; ll 74 4 true;
    ll 75 8 true; ll 76 12 false; ll 77 8 true; ll 81 12 false;
    ll 82 12 false; ll 83 12 false; ll 84 12 false; ll 85 8 true;
    ll 86 12 false; ll 87 12 false; ll 91 4 false; ll 92 4 true;
    ll 93 8 false; ll 94 4 true; ll 95 8 false; ll 96 4 false;
    ll 97 4 false; ll 99 4 false; ll 100 4 false; ll 101 4 false;
    ll 102 4 false; ll 103 4 false; ll 104 4 false; ll 108 4 false;
    ll 113 4 false; ll 114 4 false; ll 116 4 false; ll 117 4 false;
    ll 118 4 false; ll 119 4 false; ll 120 4 false; ll 124 4 true;
    ll 125 8 false; ll 126 4 false; ll 127 4 true; ll 128 8 false;
    ll 129 4 true; ll 130 8 false; ll 133 0 true; ll 134 4 false;
    ll 135 4 false; ll 140 4 false; ll 145 4 false; ll 148 4 false;
    ll 156 4 false; ll 159 4 false; ll 160 4 false; ll 169 4 false;
    ll 170 4 false; ll 176 4 false; ll 177 4 false; ll 178 4 false;
    ll 179 4 false; ll 180 4 false; ll 181 4 false; ll 182 4 false;
    ll 183 4 false; ll 184 4 false; ll 186 4 false; ll 187 8 false;
    ll 191 4 false; ll 192 4 true; ll 194 8 false; ll 197 8 false;
    ll 198 8 true; ll 199 12 true; ll 200 16 false; ll 201 8 false;
    ll 202 8 true; ll 203 12 false; ll 204 12 false; ll 206 8 false;
    ll 208 4 false; ll 209 4 false; ll 210 4 true; ll 211 8 true;
    ll 216 12 true; ll 218 16 false; ll 219 16 false; ll 221 4 false;
    ll 225 4 true; ll 226 8 false; ll 227 8 false; ll 228 8 true;
    ll 233 12 true; ll 234 16 false; ll 235 16 false; ll 236 12 false;
    ll 238 4 false; ll 303 4 false; ll 304 4 false; ll 305 4 false;
    ll 308 0 true; ll 309 4 false
  ]%nat.

(** The logical lines of search_pair.py. *)
Definition search_pair_lines : list logical_line :=
  [
    ll 1 0 false; ll 27 0 false; ll 28 0 false; ll 29 0 false;
    ll 30 0 false; ll 31 0 false; ll 32 0 false; ll 33 0 false;
    ll 34 0 false; ll 36 0 false; ll 37 0 false; ll 39 0 false;
    ll 42 0 true; ll 43 4 false; ll 44 4 false; ll 45 4 false;
    ll 48 0 true; ll 67 4 false; ll 73 4 true; ll 76 8 false;
    ll 77 8 false; ll 78 8 false; ll 80 4 false; ll 81 4 true;
    ll 82 8 false; ll 83 4 true; ll 84 8 false; ll 86 4 true;
    ll 87 8 true; ll 88 12 false; ll 89 8 true; ll 93 12 false;
    ll 94 12 false; ll 95 12 false; ll 96 12 false; ll 97 8 true;
    ll 98 12 false; ll 99 12 false; ll 103 4 false; ll 104 4 true;
    ll 105 8 false; ll 106 4 true; ll 107 8 false; ll 108 4 false;
    ll 109 4 false; ll 111 4 false; ll 112 4 false; ll 113 4 false;
    ll 114 4 false; ll 115 4 false; ll 116 4 false; ll 120 4 false;
    ll 125 4 false; ll 126 4 false; ll 128 4 false; ll 129 4 false;
    ll 130 4 false; ll 131 4 false; ll 132 4 false; ll 136 4 true;
    ll 137 8 false; ll 138 4 false; ll 139 4 true; ll 140 8 false;
    ll 141 4 true; ll 142 8 false; ll 147 0 true; ll 157 4 true;
    ll 158 8 false; ll 159 4 true; ll 163 8 false; ll 164 8 false;
    ll 165 8 false; ll 166 8 false; ll 167 4 true; ll 168 8 false;
    ll 169 8 false; ll 173 4 false; ll 174 4 true; ll 175 8 false;
    ll 176 4 true; ll 177 8 false; ll 178 4 false; ll 186 4 false;
    ll 187 4 false; ll 188 4 false; ll 189 4 false; ll 190 4 false;
    ll 191 4 false; ll 192 4 false; ll 193 4 false; ll 194 4 false;
    ll 195 4 false; ll 196 4 false; ll 197 4 false; ll 198 4 false;
    ll 199 4 false; ll 200 4 false
  ]%nat.

Section Pipelines.

Context (rt : runtime).

(** [str(v)] *)
Definition py_str (v : pyval) : string :=
  match v with
  | PyNone => "None"
  | PyBool true => "True"
  | PyBool false => "False"
  | PyInt z => str_int z
  | PyFloat f => float_repr rt f
  | PyObject tag => object_str rt tag
  end.

(** Lines 61-66: the filter branch rebinds three parameters. *)
Definition initial_frame (a : monomer_args) : frame :=
  if py_truthy (m_filter a) then
    {| align_eval := PyInt 10; qsc := PyFloat 0.8; max_accept := PyInt 100000;
       db_load_mode := m_db_load_mode a; dbSuffix1 := None; dbSuffix2 := None |}
  else
    {| align_eval := m_align_eval a; qsc := m_qsc a; max_accept := m_max_accept a;
       db_load_mode := m_db_load_mode a; dbSuffix1 := None; dbSuffix2 := None |}.

(** *** Argument lists of the monomer pipeline (lines 91-120) *)

Definition sensitivity_param (s : pyval) : list string :=
  match s with
  | PyNone => ["--k-score"; "'seq:96,prof:80'"]
  | _ => ["-s"; format_1f rt s]
  end.

Definition search_param (s dlm : pyval) : list string :=
  ["--num-iterations"; "3"; "--db-load-mode"; py_str dlm; "-a"; "-e"; "0.1";
   "--max-seqs"; "10000"] ++ sensitivity_param s.

Definition filter_param (a : monomer_args) : list string :=
  ["--filter-msa"; py_str (m_filter a); "--filter-min-enable"; "1000"; "--diff";
   py_str (m_diff a); "--qid"; "0.0,0.2,0.4,0.6,0.8,1.0"; "--qsc"; "0";
   "--max-seq-id"; "0.95"].

Definition expand_param (a : monomer_args) : list string :=
  ["--expansion-mode"; "0"; "-e"; py_str (m_expand_eval a);
   "--expand-filter-clusters"; py_str (m_filter a); "--max-seq-id"; "0.95"].

Definition search_params (a : monomer_args) (fr : frame) : list string :=
  ["search"; joinpath rt (m_base a) "qdb"; joinpath rt (m_dbbase a) (m_uniref_db a);
   joinpath rt (m_base a) "res"; joinpath rt (m_base a) "tmp"; "--threads";
   py_str (m_threads a)] ++ search_param (m_s a) (db_load_mode fr).

Definition mvdb_profile_params (a : monomer_args) : list string :=
  ["mvdb"; joinpath rt (m_base a) "tmp/latest/profile_1";
   joinpath rt (m_base a) "prof_res"].

Definition lndb_params (a : monomer_args) : list string :=
  ["lndb"; joinpath rt (m_base a) "qdb_h"; joinpath rt (m_base a) "prof_res_h"].

Definition expandaln_params (a : monomer_args) (fr : frame) (s1 s2 : string)
  : list string :=
  ["expandaln"; joinpath rt (m_base a) "qdb";
   joinpath rt (m_dbbase a) (m_uniref_db a +:+ s1); joinpath rt (m_base a) "res";
   joinpath rt (m_dbbase a) (m_uniref_db a +:+ s2); joinpath rt (m_base a) "res_exp";
   "--db-load-mode"; py_str (db_load_mode fr); "--threads"; py_str (m_threads a)]
  ++ expand_param a.

Definition align_params (a : monomer_args) (fr : frame) (s1 : string) : list string :=
  ["align"; joinpath rt (m_base a) "prof_res";
   joinpath rt (m_dbbase a) (m_uniref_db a +:+ s1); joinpath rt (m_base a) "res_exp";
   joinpath rt (m_base a) "res_exp_realign"; "--db-load-mode"; py_str (db_load_mode fr);
   "-e"; py_str (align_eval fr); "--max-accept"; py_str (max_accept fr); "--threads";
   py_str (m_threads a); "--alt-ali"; "10"; "-a"].

Definition filterresult_params (a : monomer_args) (fr : frame) (s1 : string)
  : list string :=
  ["filterresult"; joinpath rt (m_base a) "qdb";
   joinpath rt (m_dbbase a) (m_uniref_db a +:+ s1);
   joinpath rt (m_base a) "res_exp_realign";
   joinpath rt (m_base a) "res_exp_realign_filter"; "--db-load-mode";
   py_str (db_load_mode fr); "--qid"; "0"; "--qsc"; py_str (qsc fr); "--diff"; "0";
   "--threads"; py_str (m_threads a); "--max-seq-id"; "1.0"; "--filter-min-enable";
   "100"].

Definition result2msa_params (a : monomer_args) (fr : frame) (s1 : string)
  : list string :=
  ["result2msa"; joinpath rt (m_base a) "qdb";
   joinpath rt (m_dbbase a) (m_uniref_db a +:+ s1);
   joinpath rt (m_base a) "res_exp_realign_filter"; joinpath rt (m_base a) "uniref.a3m";
   "--msa-format-mode"; "6"; "--db-load-mode"; py_str (db_load_mode fr); "--threads";
   py_str (m_threads a)] ++ filter_param a.

Definition rmdb_params (base : path) (name : string) : list string :=
  ["rmdb"; joinpath rt base name].

Definition mvdb_final_params (a : monomer_args) : list string :=
  ["mvdb"; joinpath rt (m_base a) "uniref.a3m"; joinpath rt (m_base a) "final.a3m"].

Definition unpackdb_params (a : monomer_args) : list string :=
  ["unpackdb"; joinpath rt (m_base a) "final.a3m"; joinpath rt (m_base a) ".";
   "--unpack-name-mode"; "0"; "--unpack-suffix"; ".a3m"].

(** *** Argument lists of the pairing pipeline (lines 186-199) *)

Definition pairaln1_params (a : pair_args) (fr : frame) : list string :=
  ["pairaln"; joinpath rt (p_base a) "qdb"; joinpath rt (p_dbbase a) (p_uniref_db a);
   joinpath rt (p_base a) "res_exp_realign"; joinpath rt (p_base a) "res_exp_realign_pair";
   "--db-load-mode"; py_str (db_load_mode fr); "--pairing-mode";
   py_str (p_pairing_strategy a); "--pairing-dummy-mode"; "0"; "--threads";
   py_str (p_threads a)].

Definition pair_align_params (a : pair_args) (fr : frame) (s1 : string) : list string :=
  ["align"; joinpath rt (p_base a) "qdb";
   joinpath rt (p_dbbase a) (p_uniref_db a +:+ s1);
   joinpath rt (p_base a) "res_exp_realign_pair";
   joinpath rt (p_base a) "res_exp_realign_pair_bt"; "--db-load-mode";
   py_str (db_load_mode fr); "-e"; "inf"; "-a"; "--threads"; py_str (p_threads a)].

Definition pairaln2_params (a : pair_args) (fr : frame) : list string :=
  ["pairaln"; joinpath rt (p_base a) "qdb"; joinpath rt (p_dbbase a) (p_uniref_db a);
   joinpath rt (p_base a) "res_exp_realign_pair_bt"; joinpath rt (p_base a) "res_final";
   "--db-load-mode"; py_str (db_load_mode fr); "--pairing-mode";
   py_str (p_pairing_strategy a); "--pairing-dummy-mode"; "1"; "--threads";
   py_str (p_threads a)].

Definition pair_result2msa_params (a : pair_args) (fr : frame) (s1 : string)
  : list string :=
  ["result2msa"; joinpath rt (p_base a) "qdb";
   joinpath rt (p_dbbase a) (p_uniref_db a +:+ s1); joinpath rt (p_base a) "res_final";
   joinpath rt (p_base a) "pair.a3m"; "--db-load-mode"; py_str (db_load_mode fr);
   "--msa-format-mode"; "5"; "--threads"; py_str (p_threads a)].

Definition pair_unpackdb_params (a : pair_args) : list string :=
  ["unpackdb"; joinpath rt (p_base a) "pair.a3m"; joinpath rt (p_base a) ".";
   "--unpack-name-mode"; "0"; "--unpack-suffix"; ".paired.a3m"].

(** The databases the pairing pipeline removes at its end, in order. *)
Definition pair_cleanup_names : list string :=
  ["qdb"; "qdb_h"; "res"; "res_exp"; "res_exp_realign"; "res_exp_realign_pair";
   "res_exp_realign_pair_bt"; "res_final"; "pair.a3m"].

(** *** The run monad: world passing, exceptions, and the trace produced *)

Context {W : Type} (h : handler W) (g : namespace).

Definition M (A : Type) : Type := W -> result A * W * list event.

Definition ret {A} (a : A) : M A := fun w => (ok a, w, []).

Definition raise {A} (e : exn) : M A := fun w => (err e, w, []).

Definition bind {A B} (m : M A) (k : A -> M B) : M B := fun w =>
  match m w with
  | (inl e, w1, t1) => (inl e, w1, t1)
  | (inr a, w1, t1) =>
      match k a w1 with
      | (r, w2, t2) => (r, w2, t1 ++ t2)
      end
  end.

Notation "x <- m ;; k" := (bind m (fun x => k))
  (at level 100, m at next level, right associativity).
Notation "m ;; k" := (bind m (fun _ => k))
  (at level 100, right associativity).

(** Reading a global name: [NameError] when the module namespace does not
    bind it (neither [use_templates] nor [use_env] is a builtin). *)
Definition load_global (name : string) : M pyval := fun w =>
  match g !! name with
  | Some v => (ok v, w, [])
  | None => (err (NameError name), w, [])
  end.

(** Reading a local that may not have been assigned yet. *)
Definition load_local (name : string) (v : option string) : M string :=
  match v with
  | Some s => ret s
  | None => raise (UnboundLocalError name)
  end.

Definition log_info (msg : string) : M unit := fun w => (ok tt, w, [EvInfo msg]).

Definition path_is_file (p : path) : M bool := fun w =>
  (ok (is_file h p w), w, [EvIsFile p]).

Definition path_glob (dir : path) (pattern : string) : M (list path) := fun w =>
  (ok (glob h dir pattern w), w, [EvGlob dir pattern]).

Definition lift_file_op (op : W -> option exn * W) (ev : event) : M unit := fun w =>
  match op w with
  | (Some e, w') => (err e, w', [ev])
  | (None, w') => (ok tt, w', [ev])
  end.

Definition path_unlink (p : path) : M unit := lift_file_op (unlink h p) (EvUnlink p).
Definition shutil_rmtree (p : path) : M unit := lift_file_op (rmtree h p) (EvRmtree p).
Definition path_mkdir (p : path) : M unit := lift_file_op (mkdir h p) (EvMkdir p).
Definition path_write (p : path) (text : string) : M unit :=
  lift_file_op (write_text h p text) (EvWrite p text).

(** [subprocess.run(argv)]: the exit status is in the returned object and
    nothing is raised for a non-zero one. *)
Definition subprocess_run (argv : list string) : M Z := fun w =>
  match spawn h argv w with
  | (r, w') => (r, w', [EvSpawn argv])
  end.

(** [subprocess.check_call(argv)]: raises on a non-zero exit status. *)
Definition subprocess_check_call (argv : list string) : M unit :=
  rc <- subprocess_run argv ;;
  if rc =? 0 then ret tt else raise (CalledProcessError rc argv).

(** [run_mmseqs] (search_monomer.py lines 30-33, search_pair.py 42-45). *)
Definition run_mmseqs (mmseqs : path) (params : list string) : M unit :=
  let params_log := str_join " " params in
  log_info ("Running " +:+ mmseqs +:+ " " +:+ params_log) ;;
  subprocess_check_call (mmseqs :: params).

(** [for x in l: body(x)] *)
Fixpoint for_each {A} (l : list A) (body : A -> M unit) : M unit :=
  match l with
  | [] => ret tt
  | x :: l' => body x ;; for_each l' body
  end.

(** A loop that threads assigned variables through its iterations. *)
Fixpoint for_fold {A S} (l : list A) (body : A -> S -> M S) (s : S) : M S :=
  match l with
  | [] => ret s
  | x :: l' => s' <- body x s ;; for_fold l' body s'
  end.

(** One database check: the [.dbtype] test and the index test with its
    short-circuit [and] (monomer lines 75-87, pair lines 157-169). *)
Definition check_db (dbbase db : path) (fr : frame) : M frame :=
  has_dbtype <- path_is_file (joinpath rt dbbase (db +:+ ".dbtype")) ;;
  if negb has_dbtype then
    raise (FileNotFoundError ("Database " +:+ db +:+ " does not exist"))
  else
    has_idx <- path_is_file (joinpath rt dbbase (db +:+ ".idx")) ;;
    if has_idx then ret (set_index_present fr)
    else
      has_idx_index <- path_is_file (joinpath rt dbbase (db +:+ ".idx.index")) ;;
      if has_idx_index then ret (set_index_present fr)
      else
        log_info "Search does not use index" ;;
        ret (set_index_absent fr).

(** Lines 68-72: [used_dbs], from the two global toggles. *)
Definition used_dbs (a : monomer_args) : M (list path) :=
  use_templates <- load_global "use_templates" ;;
  let dbs := [m_uniref_db a] ++ (if py_truthy use_templates then [m_template_db a] else []) in
  use_env <- load_global "use_env" ;;
  ret (dbs ++ (if py_truthy use_env then [m_metagenomic_db a] else [])).

(** Lines 99-120: the stage invocations. *)
Definition monomer_stages (a : monomer_args) (fr : frame) : M unit :=
  let mmseqs := m_mmseqs a in
  run_mmseqs mmseqs (search_params a fr) ;;
  run_mmseqs mmseqs (mvdb_profile_params a) ;;
  run_mmseqs mmseqs (lndb_params a) ;;
  s1 <- load_local "dbSuffix1" (dbSuffix1 fr) ;;
  s2 <- load_local "dbSuffix2" (dbSuffix2 fr) ;;
  run_mmseqs mmseqs (expandaln_params a fr s1 s2) ;;
  run_mmseqs mmseqs (align_params a fr s1) ;;
  run_mmseqs mmseqs (filterresult_params a fr s1) ;;
  run_mmseqs mmseqs (result2msa_params a fr s1) ;;
  subprocess_run (mmseqs :: rmdb_params (m_base a) "res_exp") ;;
  subprocess_run (mmseqs :: rmdb_params (m_base a) "res") ;;
  run_mmseqs mmseqs (mvdb_final_params a) ;;
  run_mmseqs mmseqs (unpackdb_params a) ;;
  run_mmseqs mmseqs (rmdb_params (m_base a) "final.a3m") ;;
  run_mmseqs mmseqs (rmdb_params (m_base a) "uniref.a3m") ;;
  run_mmseqs mmseqs (rmdb_params (m_base a) "res").

(** Lines 124-130: scratch files and temporary directories. *)
Definition monomer_teardown (a : monomer_args) : M unit :=
  files <- path_glob (m_base a) "prof_res*" ;;
  for_each files path_unlink ;;
  shutil_rmtree (joinpath rt (m_base a) "tmp") ;;
  use_templates <- load_global "use_templates" ;;
  (if py_truthy use_templates then shutil_rmtree (joinpath rt (m_base a) "tmp2")
   else ret tt) ;;
  use_env <- load_global "use_env" ;;
  (if py_truthy use_env then shutil_rmtree (joinpath rt (m_base a) "tmp3")
   else ret tt).

(** Lines 61-87: everything before the first stage invocation. *)
Definition monomer_prelude (a : monomer_args) : M frame :=
  let fr := initial_frame a in
  dbs <- used_dbs a ;;
  for_fold dbs (check_db (m_dbbase a)) fr.

(** [mmseqs_search_monomer] (search_monomer.py lines 36-130; the copy in
    search_pair.py, lines 48-142, is the same text). *)
Definition mmseqs_search_monomer (a : monomer_args) : M unit :=
  fr <- monomer_prelude a ;;
  monomer_stages a fr ;;
  monomer_teardown a.

(** [mmseqs_search_pair] (search_pair.py lines 147-200).  [search_param] and
    [expand_param] are built there but no call uses them. *)
Definition pair_initial_frame (a : pair_args) : frame :=
  {| align_eval := PyNone; qsc := PyNone; max_accept := PyNone;
     db_load_mode := p_db_load_mode a; dbSuffix1 := None; dbSuffix2 := None |}.

Definition pair_stages (a : pair_args) (fr : frame) : M unit :=
  let mmseqs := p_mmseqs a in
  run_mmseqs mmseqs (pairaln1_params a fr) ;;
  s1 <- load_local "dbSuffix1" (dbSuffix1 fr) ;;
  run_mmseqs mmseqs (pair_align_params a fr s1) ;;
  run_mmseqs mmseqs (pairaln2_params a fr) ;;
  run_mmseqs mmseqs (pair_result2msa_params a fr s1) ;;
  run_mmseqs mmseqs (pair_unpackdb_params a).

Definition pair_cleanup (a : pair_args) : M unit :=
  for_each pair_cleanup_names (fun name => run_mmseqs (p_mmseqs a) (rmdb_params (p_base a) name)) ;;
  shutil_rmtree (joinpath rt (p_base a) "tmp").

Definition mmseqs_search_pair (a : pair_args) : M unit :=
  fr <- check_db (p_dbbase a) (p_uniref_db a) (pair_initial_frame a) ;;
  pair_stages a fr ;;
  pair_cleanup a.

(** *** The calls of a pipeline as a list *)

(** The same stage invocations, one list entry per source line. *)
Definition run_step (mmseqs : path) (c : step) : M unit :=
  match c with
  | Checked params => run_mmseqs mmseqs params
  | Unchecked params => subprocess_run (mmseqs :: params) ;; ret tt
  end.

Definition run_steps (mmseqs : path) (cs : list step) : M unit :=
  for_each cs (run_step mmseqs).

Definition monomer_calls (a : monomer_args) (fr : frame) (s1 s2 : string) : list step :=
  [ Checked (search_params a fr);
    Checked (mvdb_profile_params a);
    Checked (lndb_params a);
    Checked (expandaln_params a fr s1 s2);
    Checked (align_params a fr s1);
    Checked (filterresult_params a fr s1);
    Checked (result2msa_params a fr s1);
    Unchecked (rmdb_params (m_base a) "res_exp");
    Unchecked (rmdb_params (m_base a) "res");
    Checked (mvdb_final_params a);
    Checked (unpackdb_params a);
    Checked (rmdb_params (m_base a) "final.a3m");
    Checked (rmdb_params (m_base a) "uniref.a3m");
    Checked (rmdb_params (m_base a) "res") ].

Definition pair_calls (a : pair_args) (fr : frame) (s1 : string) : list step :=
  [ Checked (pairaln1_params a fr);
    Checked (pair_align_params a fr s1);
    Checked (pairaln2_params a fr);
    Checked (pair_result2msa_params a fr s1);
    Checked (pair_unpackdb_params a) ].

Definition pair_cleanup_calls (a : pair_args) : list step :=
  map (fun name => Checked (rmdb_params (p_base a) name)) pair_cleanup_names.

(** *** [main] of search_monomer.py (lines 186-305) *)

(** What follows argument parsing; [queries] is what [get_queries] returned. *)
Definition main (args : cli_args) (queries : list query) : M unit :=
  match normalize_queries queries with
  | inl e => raise e
  | inr queries_unique =>
      path_mkdir (c_base args) ;;
      let query_file := joinpath rt (c_base args) "query.fas" in
      path_write query_file (query_fasta_text queries_unique) ;;
      run_mmseqs (c_mmseqs args)
        ["createdb"; query_file; joinpath rt (c_base args) "qdb"; "--shuffle"; "0"] ;;
      path_write (joinpath rt (c_base args) "qdb.lookup") (lookup_text queries_unique) ;;
      mmseqs_search_monomer
        {| m_dbbase := c_dbbase args; m_base := c_base args; m_uniref_db := c_db1 args;
           m_template_db := c_db2 args; m_metagenomic_db := c_db3 args;
           m_mmseqs := c_mmseqs args; m_filter := c_filter args;
           m_expand_eval := c_expand_eval args; m_align_eval := c_align_eval args;
           m_diff := c_diff args; m_qsc := c_qsc args; m_max_accept := c_max_accept args;
           m_s := c_s args; m_db_load_mode := c_db_load_mode args;
           m_threads := c_threads args |} ;;
      path_unlink query_file ;;
      run_mmseqs (c_mmseqs args) (rmdb_params (c_base args) "qdb") ;;
      run_mmseqs (c_mmseqs args) (rmdb_params (c_base args) "qdb_h")
  end.

(** Running a source file as a script: it is compiled first, and nothing
    of it is executed when compilation fails. *)
Definition run_script (source : list logical_line) (body : M unit) : M unit :=
  match compile_module source with
  | inl e => raise e
  | inr _ => body
  end.

(** [python search_monomer.py ...] *)
Definition search_monomer_script (args : cli_args) (queries : list query) : M unit :=
  run_script search_monomer_lines (main args queries).

End Pipelines.

(** ** Definitions used to state the properties *)

(** First-seen order, as the specification words it: every distinct
    sequence once, in the order of its first occurrence. *)
Fixpoint first_seen (raw : list string) : list string :=
  match raw with
  | [] => []
  | x :: rest => x :: filter (λ y, y ≠ x) (first_seen rest)
  end.

(** Number of occurrences of [s] in [raw]. *)
Definition occurrences (s : string) (raw : list string) : Z :=
  Z.of_nat (length (filter (λ x, x = s) raw)).

(** [sum(l)] *)
Definition sum_Z (l : list Z) : Z := foldr Z.add 0 l.

(** The headers of [query.fas], in file order. *)
Definition query_fasta_headers (queries_unique : list job) : list Z :=
  map fst (query_fasta_records queries_unique).

(** ** The Python runtime of the examples

    CPython's formatting of numbers and [pathlib]'s joining of POSIX paths,
    for the runs on concrete worlds below. *)

(** [n / d] rounded to the nearest integer, ties to even ([0 <= n], [0 < d]). *)
Definition div_half_even (n d : Z) : Z :=
  let q := n / d in
  let r := n mod d in
  if 2 * r <? d then q
  else if d <? 2 * r then q + 1
  else if Z.even q then q else q + 1.

(** [m * 2^e * 10^s] as a fraction. *)
Definition scaled (m e s : Z) : Z * Z :=
  (m * 2 ^ Z.max e 0 * 10 ^ Z.max s 0, 2 ^ Z.max (- e) 0 * 10 ^ Z.max (- s) 0).

(** ["{:.1f}".format(x)] for the finite float [(-1)^sign * m * 2^e]. *)
Definition fixed1 (sign : bool) (m e : Z) : string :=
  let '(n, d) := scaled m e 1 in
  let q := div_half_even n d in
  (if sign then "-" else "") +:+ str_int (q / 10) +:+ "." +:+ str_int (q mod 10).

(** [float(z)] of an integer, as mantissa and exponent: the 53 leading bits,
    rounded to nearest, ties to even. *)
Definition float_of_Z (z : Z) : Z * Z :=
  let a := Z.abs z in
  let sh := Z.max (Z.log2 a + 1 - 53) 0 in
  (div_half_even a (2 ^ sh), sh).

Definition format_1f_float (f : float) : string :=
  match FloatOps.Prim2SF f with
  | SpecFloat.S754_nan => "nan"
  | SpecFloat.S754_infinity s => if s then "-inf" else "inf"
  | SpecFloat.S754_zero s => if s then "-0.0" else "0.0"
  | SpecFloat.S754_finite s m e => fixed1 s (Zpos m) e
  end.

Definition format_1f_int (z : Z) : string :=
  let '(m, e) := float_of_Z z in
  if m =? 0 then "0.0" else fixed1 (z <? 0) m e.

(** *** [repr] of a float: the shortest decimal that reads back as the float *)

(** Whether the decimal [D * 10^j] reads back as the float [m * 2^e]: it
    lies between the midpoints to the neighbouring floats, the midpoints
    themselves included when [m] is even. *)
Definition reads_back (m e D j : Z) : bool :=
  let narrow := (m =? 2 ^ 52) && (-1074 <? e) in
  (* all of [lo], [hi], the float, in units of [2^(e-2)] *)
  let lo := if narrow then 4 * m - 1 else 4 * m - 2 in
  let hi := 4 * m + 2 in
  (* [D * 10^j] in units of [2^(e-2)], as a fraction [vn / vd] *)
  let '(un, ud) := scaled 1 (e - 2) 0 in   (* the unit *)
  let '(dn, dd) := scaled D 0 j in
  let vn := dn * ud in
  let vd := dd * un in
  if Z.even m then (lo * vd <=? vn) && (vn <=? hi * vd)
  else (lo * vd <? vn) && (vn <? hi * vd).

(** The decimal exponent [k] with [10^k <= m * 2^e < 10^(k+1)]. *)
Definition below_pow10 (m e k : Z) : bool :=   (* m * 2^e < 10^k *)
  let '(n, d) := scaled m e (- k) in n <? d.

Definition decimal_exponent (m e : Z) : Z :=
  let k0 := ((Z.log2 m + e) * 30103) / 100000 in
  let k1 := if below_pow10 m e k0 then k0 - 1 else k0 in
  let k2 := if below_pow10 m e k1 then k1 - 1 else k1 in
  let k3 := if below_pow10 m e (k2 + 1) then k2 else k2 + 1 in
  if below_pow10 m e (k3 + 1) then k3 else k3 + 1.

(** The best decimal with [p] digits, if one reads back: of the two
    [p]-digit decimals around the float, the nearer one that reads back. *)
Definition candidate (m e k : Z) (p : nat) : option (Z * Z) :=
  let j := k - Z.of_nat p + 1 in
  let '(n, d) := scaled m e (- j) in
  let lo := n / d in
  let hi := lo + 1 in
  let r := n mod d in
  let ok_lo := (0 <? lo) && reads_back m e lo j in
  let ok_hi := reads_back m e hi j in
  let lo_nearer := (2 * r <? d) || ((2 * r =? d) && Z.even lo) in
  if ok_lo && (lo_nearer || negb ok_hi) then Some (lo, j)
  else if ok_hi then Some (hi, j)
  else None.

Fixpoint shortest (m e k : Z) (p : nat) (fuel : nat) : Z * Z :=
  match fuel with
  | O => (0, 0)
  | S fuel' =>
      match candidate m e k p with
      | Some c => c
      | None => shortest m e k (S p) fuel'
      end
  end.

Fixpoint strip_zeros (fuel : nat) (D j : Z) : Z * Z :=
  match fuel with
  | O => (D, j)
  | S fuel' => if (D mod 10 =? 0) && negb (D =? 0) then strip_zeros fuel' (D / 10) (j + 1)
               else (D, j)
  end.

Fixpoint zeros (n : nat) : string :=
  match n with O => "" | S n' => "0" +:+ zeros n' end.

Definition string_take (n : nat) (s : string) : string := String.substring 0 n s.
Definition string_drop (n : nat) (s : string) : string :=
  String.substring n (String.length s - n)%nat s.

(** The layout [repr] gives the digits [ds] of the value [0.ds * 10^decpt]. *)
Definition repr_layout (ds : string) (decpt : Z) : string :=
  let n := Z.of_nat (String.length ds) in
  if (decpt <=? -4) || (16 <? decpt) then
    let ex := decpt - 1 in
    let mant := if n =? 1 then ds else string_take 1 ds +:+ "." +:+ string_drop 1 ds in
    let a := Z.abs ex in
    mant +:+ "e" +:+ (if ex <? 0 then "-" else "+")
         +:+ (if a <? 10 then "0" else "") +:+ str_int a
  else if decpt <=? 0 then "0." +:+ zeros (Z.to_nat (- decpt)) +:+ ds
  else if n <=? decpt then ds +:+ zeros (Z.to_nat (decpt - n)) +:+ ".0"
  else string_take (Z.to_nat decpt) ds +:+ "." +:+ string_drop (Z.to_nat decpt) ds.

Definition float_repr_short (f : float) : string :=
  match FloatOps.Prim2SF f with
  | SpecFloat.S754_nan => "nan"
  | SpecFloat.S754_infinity s => if s then "-inf" else "inf"
  | SpecFloat.S754_zero s => if s then "-0.0" else "0.0"
  | SpecFloat.S754_finite s m e =>
      let k := decimal_exponent (Zpos m) e in
      let '(D0, j0) := shortest (Zpos m) e k 1 17 in
      let '(D, j) := strip_zeros 20 D0 j0 in
      let ds := str_int D in
      (if s then "-" else "") +:+ repr_layout ds (Z.of_nat (String.length ds) + j)
  end.

(** *** [pathlib]: joining POSIX paths *)

Fixpoint split_on (sep : Ascii.ascii) (s : string) : list string :=
  match s with
  | EmptyString => [EmptyString]
  | String c s' =>
      if Ascii.eqb c sep then EmptyString :: split_on sep s'
      else match split_on sep s' with
           | x :: l => String c x :: l
           | [] => [String c EmptyString]
           end
  end.

Definition slash : Ascii.ascii := Ascii.ascii_of_nat 47.

Fixpoint leading_slashes (s : string) : nat :=
  match s with
  | String c s' => if Ascii.eqb c slash then S (leading_slashes s') else O
  | EmptyString => O
  end.

(** The root and the components of a POSIX path as [pathlib] parses it:
    empty components and [.] are dropped, [..] is kept. *)
Definition posix_root (s : string) : string :=
  match leading_slashes s with
  | O => ""
  | 2%nat => "//"
  | _ => "/"
  end.

Definition posix_parts (s : string) : list string :=
  filter (fun c => c <> "" /\ c <> ".") (split_on slash s).

Definition posix_render (root : string) (parts : list string) : string :=
  match root, parts with
  | EmptyString, [] => "."
  | _, _ => root +:+ str_join "/" parts
  end.

(** [str(Path(dir).joinpath(name))]: an absolute [name] replaces [dir]. *)
Definition posix_join (dir name : string) : string :=
  match leading_slashes name with
  | O => posix_render (posix_root dir) (posix_parts dir ++ posix_parts name)
  | _ => posix_render (posix_root name) (posix_parts name)
  end.

(** ["{:.1f}".format(v)] for the numbers.  For [None] and for other
    objects Python raises [TypeError]; the pipelines format [s] only when
    it is not [None]. *)
Definition format_1f_value (v : pyval) : string :=
  match v with
  | PyInt z => format_1f_int z
  | PyBool b => if b then "1.0" else "0.0"
  | PyFloat f => format_1f_float f
  | PyNone | PyObject _ => "?"
  end.

Definition example_runtime : runtime :=
  {| float_repr := float_repr_short;
     format_1f := format_1f_value;
     object_str := fun tag => tag;
     joinpath := posix_join |}.

(** A scripted world: the state counts the child processes run so far; the
    [n]-th of them ends with the [n]-th status of [statuses] (0 past the end
    of the list); [files] are the regular files that exist; [scratch] is
    what [glob] finds; [unlink] fails on the paths of [locked]. *)
Definition scripted (files : list path) (statuses : list Z) (scratch locked : list path)
  : handler nat :=
  {| is_file := fun p _ => bool_decide (p ∈ files);
     spawn := fun _ n => (ok (nth n statuses 0), S n);
     glob := fun _ _ _ => scratch;
     unlink := fun p n =>
       if bool_decide (p ∈ locked) then (Some (OSError ("cannot remove " +:+ p)), n)
       else (None, n);
     rmtree := fun _ n => (None, n);
     mkdir := fun _ n => (None, n);
     write_text := fun _ _ n => (None, n) |}.

(** The module namespace with the two toggles bound by hand. *)
Definition with_toggles (use_templates use_env : bool) : namespace :=
  <["use_templates" := PyBool use_templates]>
    (<["use_env" := PyBool use_env]> module_globals).

Definition example_monomer_args : monomer_args :=
  {| m_dbbase := "/db"; m_base := "/out"; m_uniref_db := "uniref30_2302_db";
     m_template_db := "."; m_metagenomic_db := "colabfold_envdb_202108_db";
     m_mmseqs := "mmseqs"; m_filter := PyBool true; m_expand_eval := PyFloat infinity;
     m_align_eval := PyInt 10; m_diff := PyInt 3000; m_qsc := PyFloat (-20)%float;
     m_max_accept := PyInt 1000000; m_s := PyInt 8; m_db_load_mode := PyInt 2;
     m_threads := PyInt 32 |}.

Definition example_pair_args : pair_args :=
  {| p_dbbase := "/db"; p_base := "/out"; p_uniref_db := "uniref30_2302_db";
     p_mmseqs := "mmseqs"; p_s := PyInt 8; p_threads := PyInt 64;
     p_db_load_mode := PyInt 2; p_pairing_strategy := PyInt 0 |}.

(** The events of a trace that are child processes. *)
Definition spawned (t : list event) : list (list string) :=
  omap (fun ev => match ev with EvSpawn argv => Some argv | _ => None end) t.

(** The line [run_mmseqs] logs before it starts the process. *)
Definition running_msg (mmseqs : path) (params : list string) : string :=
  "Running " +:+ mmseqs +:+ " " +:+ str_join " " params.

(** Example worlds.  In all of them the reference database has its
    [.dbtype] file. *)
Definition uniref_indexed : list path :=
  ["/db/uniref30_2302_db.dbtype"; "/db/uniref30_2302_db.idx"].

Definition uniref_plain : list path := ["/db/uniref30_2302_db.dbtype"].

(** The fifth process, [align] in the monomer pipeline, ends with status 1. *)
Definition align_fails : handler nat :=
  scripted uniref_indexed [0; 0; 0; 0; 1] ["/out/prof_res"] [].

(** The frame of the examples once the indexed database has been seen. *)
Definition example_frame : frame :=
  set_index_present (initial_frame example_monomer_args).

(** The argument list of a call, and the command lines of the monomer
    pipeline for given values of its variables. *)
Definition step_params (c : step) : list string :=
  match c with
  | Checked params | Unchecked params => params
  end.

Definition monomer_commands (rt : runtime) (a : monomer_args) (fr : frame)
    (s1 s2 : string) : list (list string) :=
  map (fun c => m_mmseqs a :: step_params c) (monomer_calls rt a fr s1 s2).

(** What lines 61-66 leave in [align_eval], [qsc] and [max_accept]. *)
Definition filter_values (a : monomer_args) (fr : frame) : Prop :=
  if py_truthy (m_filter a) then
    align_eval fr = PyInt 10 /\ qsc fr = PyFloat 0.8 /\ max_accept fr = PyInt 100000
  else
    align_eval fr = m_align_eval a /\ qsc fr = m_qsc a /\ max_accept fr = m_max_accept a.

(** The same call with other values for the three parameters. *)
Definition with_caller_values (a : monomer_args) (ae q ma : pyval) : monomer_args :=
  {| m_dbbase := m_dbbase a; m_base := m_base a; m_uniref_db := m_uniref_db a;
     m_template_db := m_template_db a; m_metagenomic_db := m_metagenomic_db a;
     m_mmseqs := m_mmseqs a; m_filter := m_filter a; m_expand_eval := m_expand_eval a;
     m_align_eval := ae; m_diff := m_diff a; m_qsc := q; m_max_accept := ma;
     m_s := m_s a; m_db_load_mode := m_db_load_mode a; m_threads := m_threads a |}.

(** A run keeps every process it starts within [P] and, when it returns
    normally, returns a value in [Q]. *)
Definition establishes {W A} (m : @M W A) (P : list string -> Prop) (Q : A -> Prop)
  : Prop :=
  forall w, Forall P (spawned (snd (m w))) /\ forall x, fst (fst (m w)) = inr x -> Q x.

(** More example worlds.  Both databases exist; the reference database has
    no index file, the environmental one has its [.idx]. *)
Definition mixed_indexes : handler nat :=
  scripted ["/db/uniref30_2302_db.dbtype"; "/db/colabfold_envdb_202108_db.dbtype";
            "/db/colabfold_envdb_202108_db.idx"] [] [] [].

(** Every process ends with status 0, but the scratch file cannot be
    unlinked. *)
Definition scratch_locked : handler nat :=
  scripted uniref_indexed [] ["/out/prof_res"] ["/out/prof_res"].

(** The two best-effort removals end with status 1, everything else with 0. *)
Definition removals_fail : handler nat :=
  scripted uniref_indexed [0; 0; 0; 0; 0; 0; 0; 1; 1] [] [].

(** Pairing pipeline: the eighth process, [rmdb] of [res], ends with
    status 1. *)
Definition rmdb_res_fails : handler nat :=
  scripted uniref_plain [0; 0; 0; 0; 0; 0; 0; 1] [] [].

(** Pairing pipeline: every process ends with status 0. *)
Definition all_succeed : handler nat := scripted uniref_plain [] [] [].

(** The command lines a list of calls stands for. *)
Definition command_lines (mmseqs : path) (cs : list step) : list (list string) :=
  map (fun c => mmseqs :: step_params c) cs.

(** Index files of a database, as [check_db] tests them in the world [w]. *)
Definition has_dbtype {W} (rt : runtime) (h : handler W) (dbbase : path) (w : W)
    (db : path) : bool :=
  is_file h (joinpath rt dbbase (db +:+ ".dbtype")) w.

Definition lacks_index {W} (rt : runtime) (h : handler W) (dbbase : path) (w : W)
    (db : path) : bool :=
  negb (is_file h (joinpath rt dbbase (db +:+ ".idx")) w)
  && negb (is_file h (joinpath rt dbbase (db +:+ ".idx.index")) w).

(** Events that only look at the world or write a log line. *)
Definition is_query (ev : event) : Prop :=
  match ev with
  | EvIsFile _ | EvInfo _ => True
  | _ => False
  end.

(** The arguments [main] passes to [mmseqs_search_monomer] (lines 238-256). *)
Definition pipeline_args (args : cli_args) : monomer_args :=
  {| m_dbbase := c_dbbase args; m_base := c_base args; m_uniref_db := c_db1 args;
     m_template_db := c_db2 args; m_metagenomic_db := c_db3 args;
     m_mmseqs := c_mmseqs args; m_filter := c_filter args;
     m_expand_eval := c_expand_eval args; m_align_eval := c_align_eval args;
     m_diff := c_diff args; m_qsc := c_qsc args; m_max_accept := c_max_accept args;
     m_s := c_s args; m_db_load_mode := c_db_load_mode args;
     m_threads := c_threads args |}.

(** The command line of [createdb] in [main] (lines 221-224). *)
Definition createdb_params (rt : runtime) (args : cli_args) : list string :=
  ["createdb"; joinpath rt (c_base args) "query.fas"; joinpath rt (c_base args) "qdb";
   "--shuffle"; "0"].

Definition example_cli_args : cli_args :=
  {| c_query := "in.fasta"; c_dbbase := "/db"; c_base := "/out"; c_s := PyNone;
     c_db1 := "uniref30_2302_db"; c_db2 := "."; c_db3 := "colabfold_envdb_202108_db";
     c_filter := PyInt 1; c_mmseqs := "mmseqs"; c_expand_eval := PyFloat infinity;
     c_align_eval := PyInt 10; c_diff := PyInt 3000; c_qsc := PyFloat (-20)%float;
     c_max_accept := PyInt 1000000; c_pairing_strategy := PyInt 0;
     c_db_load_mode := PyInt 0; c_threads := PyInt 64 |}.

Definition example_queries : list query :=
  [ {| q_raw_jobname := "X"; q_query_sequences := ManySeqs ["AAA"; "BBB"; "AAA"];
       q_a3m_lines := None |};
    {| q_raw_jobname := "Y"; q_query_sequences := OneSeq "AAA"; q_a3m_lines := None |} ].

(** The environmental database has no [.dbtype] file. *)
Definition env_db_missing : handler nat :=
  scripted ["/db/uniref30_2302_db.dbtype"; "/db/uniref30_2302_db.idx"] [] [] [].

(** Two scratch files, everything succeeds. *)
Definition two_scratch_files : handler nat :=
  scripted uniref_indexed [] ["/out/prof_res"; "/out/prof_res_h"] [].

(** The frame and the first suffix after the one database check of the
    pairing pipeline, and the invocations that follow it: the five stages,
    then the nine removals. *)
Definition pair_frame {W} (rt : runtime) (h : handler W) (a : pair_args) (w : W) : frame :=
  if lacks_index rt h (p_dbbase a) w (p_uniref_db a)
  then set_index_absent (pair_initial_frame a)
  else set_index_present (pair_initial_frame a).

Definition pair_suffix {W} (rt : runtime) (h : handler W) (a : pair_args) (w : W) : string :=
  if lacks_index rt h (p_dbbase a) w (p_uniref_db a) then "_seq" else ".idx".

Definition pair_invocations {W} (rt : runtime) (h : handler W) (a : pair_args) (w : W)
  : list step :=
  pair_calls rt a (pair_frame rt h a w) (pair_suffix rt h a w) ++ pair_cleanup_calls rt a.

(** Events that remove something. *)
Definition is_removal (ev : event) : Prop :=
  match ev with
  | EvUnlink _ | EvRmtree _ => True
  | _ => False
  end.

(** What the first loop of [main] makes of [example_queries]. *)
Definition example_jobs : list job :=
  [ {| raw_jobname := "X"; query_seqs_unique := ["AAA"; "BBB"];
       query_seqs_cardinality := [2; 1] |};
    {| raw_jobname := "Y"; query_seqs_unique := ["AAA"]; query_seqs_cardinality := [1] |} ].

(** No database file at all. *)
Definition no_database : handler nat := scripted [] [] [] [].


(** The two scratch files exist and the second cannot be unlinked. *)
Definition second_scratch_locked : handler nat :=
  scripted uniref_indexed [] ["/out/prof_res"; "/out/prof_res_h"] ["/out/prof_res_h"].

(** The same call with another pairing strategy. *)
Definition with_pairing_strategy (a : pair_args) (v : pyval) : pair_args :=
  {| p_dbbase := p_dbbase a; p_base := p_base a; p_uniref_db := p_uniref_db a;
     p_mmseqs := p_mmseqs a; p_s := p_s a; p_threads := p_threads a;
     p_db_load_mode := p_db_load_mode a; p_pairing_strategy := v |}.

(** ** Query normalisation *)

Section Normalizer.

Implicit Types (xs acc uniq raw : list string) (card : list Z).

Lemma unique_loop_elem xs : forall acc x,
  x ∈ unique_loop xs acc <-> x ∈ acc \/ x ∈ xs.
Proof.
  induction xs as [|y xs IH]; intros acc x; simpl.
  - rewrite elem_of_nil. tauto.
  - case_bool_decide as Hy; rewrite IH, ?elem_of_app, !elem_of_cons, ?elem_of_nil.
    + split; [tauto|]. intros [?|[->|?]]; auto.
    + tauto.
Qed.

Lemma unique_loop_NoDup xs : forall acc, NoDup acc -> NoDup (unique_loop xs acc).
Proof.
  induction xs as [|y xs IH]; intros acc Hacc; simpl; [done|].
  case_bool_decide as Hy; apply IH; [done|].
  apply NoDup_app. split_and!; [done| |apply NoDup_singleton].
  intros z Hz Hz'. apply list_elem_of_singleton in Hz'. by subst.
Qed.

(** The loop computes the first-seen order of the specification. *)
Lemma unique_loop_first_seen xs : forall acc,
  unique_loop xs acc = acc ++ filter (λ y, y ∉ acc) (first_seen xs).
Proof.
  induction xs as [|x xs IH]; intros acc; simpl.
  - by rewrite filter_nil, app_nil_r.
  - case_bool_decide as Hx.
    + rewrite IH, filter_cons_False by (intros ?; done).
      f_equal. rewrite list_filter_filter. apply list_filter_iff.
      intros y. split; [|tauto]. intros Hy. split; [done|]. by intros ->.
    + rewrite IH, filter_cons_True by done.
      rewrite <- app_assoc. simpl. do 2 f_equal.
      rewrite list_filter_filter. apply list_filter_iff.
      intros y. rewrite elem_of_app, list_elem_of_singleton. tauto.
Qed.

Lemma list_index_lookup x : forall uniq i,
  list_index x uniq = Some i -> uniq !! i = Some x.
Proof.
  induction uniq as [|y l IH]; intros i; simpl; [done|].
  case_bool_decide as Hxy.
  - intros [= <-]. by subst.
  - destruct (list_index x l) as [j|]; simpl; [|done].
    intros [= <-]. by apply IH.
Qed.

Lemma list_index_elem x : forall uniq,
  x ∈ uniq -> is_Some (list_index x uniq).
Proof.
  induction uniq as [|y l IH]; intros Hx; simpl.
  - by apply elem_of_nil in Hx.
  - case_bool_decide as Hxy; [by eexists|].
    apply elem_of_cons in Hx as [?|Hx]; [done|].
    destruct (IH Hx) as [j ->]. by eexists.
Qed.

Lemma sum_Z_insert card : forall i c d,
  card !! i = Some c -> sum_Z (<[i := d]> card) = sum_Z card - c + d.
Proof.
  induction card as [|z l IH]; intros [|i] c d; simpl; try done.
  - intros [= ->]. lia.
  - intros Hl. unfold sum_Z in *. rewrite (IH _ _ d Hl). lia.
Qed.

Lemma sum_Z_replicate n : sum_Z (replicate n 0) = 0.
Proof. induction n as [|n IH]; simpl; [done|]. unfold sum_Z in *. by rewrite IH. Qed.

Lemma occurrences_cons s x raw :
  occurrences s (x :: raw) = (if bool_decide (x = s) then 1 else 0) + occurrences s raw.
Proof.
  unfold occurrences. case_bool_decide as Hx.
  - rewrite filter_cons_True by done. simpl. lia.
  - rewrite filter_cons_False by done. lia.
Qed.

(** The counting loop never raises, keeps the length, adds to the entry of
    each sequence the number of its occurrences, and adds the number of
    sequences read to the sum. *)
Lemma cardinality_loop_spec uniq (Hnd : NoDup uniq) : forall raw card,
  length card = length uniq ->
  (forall s, s ∈ raw -> s ∈ uniq) ->
  exists card',
    cardinality_loop raw uniq card = ok card'
    /\ length card' = length uniq
    /\ (forall i s c, uniq !! i = Some s -> card !! i = Some c ->
          card' !! i = Some (c + occurrences s raw))
    /\ sum_Z card' = sum_Z card + Z.of_nat (length raw).
Proof.
  induction raw as [|x raw IH]; intros card Hlen Hin; simpl.
  - exists card. split_and!; [done|done| |lia].
    intros i s c _ ->. unfold occurrences. simpl. f_equal. lia.
  - destruct (list_index_elem x uniq) as [j Hj]; [apply Hin; left|].
    rewrite Hj. pose proof (list_index_lookup _ _ _ Hj) as Hjx.
    destruct (lookup_lt_is_Some_2 card j) as [c Hc].
    { rewrite Hlen. by eapply lookup_lt_Some. }
    rewrite Hc.
    destruct (IH (<[j := c + 1]> card)) as (card' & Hrun & Hlen' & Hocc & Hsum).
    { by rewrite length_insert. }
    { intros s Hs. apply Hin. by right. }
    exists card'. split_and!; [done|done| |].
    + intros i s c0 Hi Hci. rewrite occurrences_cons.
      destruct (decide (i = j)) as [->|Hij].
      * assert (s = x) as -> by congruence.
        assert (c0 = c) as -> by congruence.
        rewrite bool_decide_eq_true_2 by done.
        rewrite (Hocc j x (c + 1)); [f_equal; lia|done|].
        apply list_lookup_insert_eq. by eapply lookup_lt_Some.
      * assert (x ≠ s) as Hxs.
        { intros ->. apply Hij. eapply NoDup_lookup; eauto. }
        rewrite bool_decide_eq_false_2 by done.
        rewrite (Hocc i s c0); [f_equal; lia|done|].
        by rewrite list_lookup_insert_ne.
    + rewrite Hsum, (sum_Z_insert _ _ c) by done. simpl length. lia.
Qed.

Lemma filter_all (P : string -> Prop) `{forall x, Decision (P x)} (l : list string) :
  (forall x, P x) -> filter P l = l.
Proof.
  intros HP. induction l as [|x l IH]; [done|].
  rewrite filter_cons_True by apply HP. by rewrite IH.
Qed.

(** Full description of what the first loop of [main] makes of one query. *)
Lemma normalize_query_spec (q : query) :
  let raw := as_sequence_list (q_query_sequences q) in
  exists card,
    normalize_query q
      = ok {| raw_jobname := q_raw_jobname q;
              query_seqs_unique := first_seen raw;
              query_seqs_cardinality := card |}
    /\ NoDup (first_seen raw)
    /\ (forall s, s ∈ first_seen raw <-> s ∈ raw)
    /\ length card = length (first_seen raw)
    /\ (forall i s, first_seen raw !! i = Some s -> card !! i = Some (occurrences s raw))
    /\ sum_Z card = Z.of_nat (length raw).
Proof.
  intros raw. unfold normalize_query. fold raw.
  assert (unique_loop raw [] = first_seen raw) as Huniq.
  { rewrite unique_loop_first_seen. simpl. apply filter_all.
    intros y. apply not_elem_of_nil. }
  rewrite Huniq.
  assert (NoDup (first_seen raw)) as Hnd.
  { rewrite <- Huniq. apply unique_loop_NoDup, NoDup_nil_2. }
  assert (forall s, s ∈ first_seen raw <-> s ∈ raw) as Hmem.
  { intros s. rewrite <- Huniq, unique_loop_elem, elem_of_nil. tauto. }
  destruct (cardinality_loop_spec _ Hnd raw (replicate (length (first_seen raw)) 0))
    as (card & Hrun & Hlen & Hocc & Hsum).
  { apply length_replicate. }
  { intros s. apply Hmem. }
  exists card. rewrite Hrun. simpl. split_and!; try done.
  - intros i s Hi. rewrite (Hocc i s 0 Hi); [f_equal; lia|].
    apply lookup_replicate_2. by eapply lookup_lt_Some.
  - rewrite Hsum, sum_Z_replicate. lia.
Qed.

End Normalizer.

Lemma normalize_queries_total (queries : list query) :
  exists js, normalize_queries queries = ok js
             /\ Forall2 (fun q j => normalize_query q = ok j) queries js.
Proof.
  induction queries as [|q qs (js & Hjs & Hall)]; simpl.
  - exists []. by split.
  - destruct (normalize_query_spec q) as (card & Hq & _).
    rewrite Hq, Hjs. simpl. eexists. split; [done|]. by constructor.
Qed.

(** C3: for every job, the normaliser returns (it raises nothing) the
    distinct sequences in first-seen order, without duplicates, with a
    cardinality list of the same length whose entry [i] is the number of
    occurrences of [sequences[i]] in the raw list and whose sum is the
    length of the raw list; the job X with sequences AAA, BBB, AAA gives
    sequences [AAA; BBB] and cardinality [2; 1]. *)
Theorem normalizer_dedup_cardinality :
  (forall q : query,
     let raw := as_sequence_list (q_query_sequences q) in
     exists uniq card,
       normalize_query q
         = ok {| raw_jobname := q_raw_jobname q;
                 query_seqs_unique := uniq;
                 query_seqs_cardinality := card |}
       /\ uniq = first_seen raw
       /\ NoDup uniq
       /\ (forall s, s ∈ uniq <-> s ∈ raw)
       /\ length card = length uniq
       /\ (forall i s, uniq !! i = Some s -> card !! i = Some (occurrences s raw))
       /\ sum_Z card = Z.of_nat (length raw))
  /\ normalize_query {| q_raw_jobname := "X";
                        q_query_sequences := ManySeqs ["AAA"; "BBB"; "AAA"];
                        q_a3m_lines := None |}
     = ok {| raw_jobname := "X"; query_seqs_unique := ["AAA"; "BBB"];
             query_seqs_cardinality := [2; 1] |}.
Proof.
  split; [|reflexivity].
  intros q raw.
  destruct (normalize_query_spec q) as (card & Hq & Hnd & Hmem & Hlen & Hocc & Hsum).
  exists (first_seen raw), card. by split_and!.
Qed.

(** ** The canonical query file *)

Lemma enumerate_from_headers (l : list string) : forall n,
  map fst (map (fun '(i, seq) => (101 + Z.of_nat i, seq)) (enumerate_from n l))
  = map (fun i => 101 + Z.of_nat i) (seq n (length l)).
Proof.
  induction l as [|x l IH]; intros n; simpl; [done|]. by rewrite IH.
Qed.

Lemma enumerate_from_lookup (l : list string) : forall n i s,
  l !! i = Some s ->
  map (fun '(i, seq) => (101 + Z.of_nat i, seq)) (enumerate_from n l) !! i
  = Some (101 + Z.of_nat (n + i), s).
Proof.
  induction l as [|x l IH]; intros n [|i] s; simpl; try done.
  - intros [= ->]. by rewrite Nat.add_0_r.
  - intros Hi. rewrite (IH (S n) i s Hi). do 3 f_equal. lia.
Qed.

Lemma headers_from_NoDup (k : nat) : forall n,
  NoDup (map (fun i => 101 + Z.of_nat i) (seq n k)).
Proof.
  induction k as [|k IH]; intros n; simpl; constructor; [|apply IH].
  rewrite list_elem_of_In, in_map_iff. intros (i & Heq & Hi%in_seq). lia.
Qed.

Lemma job_headers (j : job) :
  map fst (job_fasta_records j)
  = map (fun i => 101 + Z.of_nat i) (seq 0 (length (query_seqs_unique j))).
Proof. apply enumerate_from_headers. Qed.

Lemma query_fasta_headers_cons (j : job) (js : list job) :
  query_fasta_headers (j :: js) = map fst (job_fasta_records j) ++ query_fasta_headers js.
Proof. unfold query_fasta_headers, query_fasta_records. simpl. by rewrite map_app. Qed.

(** C8 as stated fails: with two jobs of one sequence each, both records
    of [query.fas] carry the header 101, so headers are not unique across
    jobs. *)
Lemma headers_repeat_across_jobs :
  exists queries_unique,
    normalize_queries
      [ {| q_raw_jobname := "A"; q_query_sequences := OneSeq "AAA"; q_a3m_lines := None |};
        {| q_raw_jobname := "B"; q_query_sequences := OneSeq "BBB"; q_a3m_lines := None |} ]
      = ok queries_unique
    /\ query_fasta_headers queries_unique = [101; 101]
    /\ (NoDup (query_fasta_headers queries_unique) -> False).
Proof.
  eexists. split; [reflexivity|]. split; [reflexivity|].
  cbv [query_fasta_headers query_fasta_records flat_map job_fasta_records enumerate
       enumerate_from query_seqs_unique map fst app].
  intros Hnd. apply NoDup_cons_1_1 in Hnd. apply Hnd. left.
Qed.

(** C8, amended: within each job the headers are 101, 102, ... in the order
    of the job's distinct sequences, hence unique within the job; the file
    is the concatenation of the jobs' records, so the numbering starts
    again at 101 with every job. *)
Theorem query_headers_restart_per_job (queries_unique : list job) :
  query_fasta_headers queries_unique
  = flat_map (fun j => map (fun i => 101 + Z.of_nat i)
                           (seq 0 (length (query_seqs_unique j)))) queries_unique
  /\ Forall (fun j =>
       NoDup (map fst (job_fasta_records j))
       /\ length (job_fasta_records j) = length (query_seqs_unique j)
       /\ forall i s, query_seqs_unique j !! i = Some s ->
                      job_fasta_records j !! i = Some (101 + Z.of_nat i, s))
     queries_unique.
Proof.
  split.
  - induction queries_unique as [|j js IH]; [done|].
    rewrite query_fasta_headers_cons, job_headers, IH. done.
  - apply Forall_forall. intros j _. split_and!.
    + rewrite job_headers. apply headers_from_NoDup.
    + unfold job_fasta_records, enumerate. rewrite length_map.
      generalize 0%nat. induction (query_seqs_unique j) as [|x l IH]; intros n; simpl;
        [done|by rewrite IH].
    + intros i s Hi. unfold job_fasta_records, enumerate.
      by rewrite (enumerate_from_lookup _ 0 i s Hi).
Qed.

(** ** Runs of the pipelines *)

Section Runs.

Context (rt : runtime) {W : Type} (h : handler W) (g : namespace).

Local Abbreviation M := (@M W).

Local Ltac unfold_run :=
  cbv [run_mmseqs run_step subprocess_check_call subprocess_run bind log_info
       ok err ret raise].
Notation "x <- m ;; k" := (bind m (fun x => k))
  (at level 100, m at next level, right associativity).
Notation "m ;; k" := (bind m (fun _ => k))
  (at level 100, right associativity).

Lemma bind_ok {A B} (m : M A) (k : A -> M B) w a w1 t1 :
  m w = (inr a, w1, t1) ->
  bind m k w = (let '(r, w2, t2) := k a w1 in (r, w2, t1 ++ t2)).
Proof. unfold bind. intros ->. by destruct (k a w1) as [[r w2] t2]. Qed.

Lemma bind_err {A B} (m : M A) (k : A -> M B) w e w1 t1 :
  m w = (inl e, w1, t1) -> bind m k w = (inl e, w1, t1).
Proof. unfold bind. by intros ->. Qed.

Lemma bind_ext {A B} (m : M A) (k k' : A -> M B) w :
  (forall a w', k a w' = k' a w') -> bind m k w = bind m k' w.
Proof.
  intros Hk. unfold bind. destruct (m w) as [[[e|a] w1] t1]; [done|].
  by rewrite Hk.
Qed.

Lemma bind_ret_r (m : M unit) w : (m ;; ret tt) w = m w.
Proof.
  unfold bind, ret. destruct (m w) as [[[e|[]] w1] t1]; [done|].
  by rewrite app_nil_r.
Qed.

Lemma bind_ret_r_any {A} (m : M A) w : bind m (fun a => ret a) w = m w.
Proof.
  unfold bind, ret. destruct (m w) as [[[e|a] w1] t1]; [done|].
  by rewrite app_nil_r.
Qed.

Lemma bind_assoc {A B C} (m : M A) (k : A -> M B) (k' : B -> M C) w :
  bind (bind m k) k' w = bind m (fun a => bind (k a) k') w.
Proof.
  unfold bind. destruct (m w) as [[[e|a] w1] t1]; [done|].
  destruct (k a w1) as [[[e|b] w2] t2]; [done|].
  destruct (k' b w2) as [[r w3] t3]. by rewrite app_assoc.
Qed.

(** A checked invocation whose process ends with status zero. *)
Lemma run_mmseqs_zero mmseqs params w w' :
  spawn h (mmseqs :: params) w = (inr 0, w') ->
  run_mmseqs h mmseqs params w
  = (inr tt, w', [EvInfo (running_msg mmseqs params); EvSpawn (mmseqs :: params)]).
Proof.
  intros Hsp. unfold_run. by rewrite Hsp.
Qed.

(** A checked invocation whose process ends with another status: the
    exception carries the status and the command; nothing else happens. *)
Lemma run_mmseqs_nonzero mmseqs params w rc w' :
  spawn h (mmseqs :: params) w = (inr rc, w') -> rc <> 0 ->
  run_mmseqs h mmseqs params w
  = (inl (CalledProcessError rc (mmseqs :: params)), w',
     [EvInfo (running_msg mmseqs params); EvSpawn (mmseqs :: params)]).
Proof.
  intros Hsp Hrc. unfold_run. rewrite Hsp. apply Z.eqb_neq in Hrc. by rewrite Hrc.
Qed.

(** An unchecked invocation: every status lets the run go on, and nothing
    is logged. *)
Lemma run_step_unchecked mmseqs params w rc w' :
  spawn h (mmseqs :: params) w = (inr rc, w') ->
  run_step h mmseqs (Unchecked params) w = (inr tt, w', [EvSpawn (mmseqs :: params)]).
Proof.
  intros Hsp. unfold_run. by rewrite Hsp.
Qed.

Lemma run_steps_app mmseqs pre post w w1 t1 :
  run_steps h mmseqs pre w = (inr tt, w1, t1) ->
  run_steps h mmseqs (pre ++ post) w
  = (let '(r, w2, t2) := run_steps h mmseqs post w1 in (r, w2, t1 ++ t2)).
Proof.
  unfold run_steps. revert w t1.
  induction pre as [|c pre IH]; intros w t1; cbn [for_each app].
  - intros [= <- <-]. by destruct (for_each post _ w) as [[r w2] t2].
  - intros Hrun.
    destruct (run_step h mmseqs c w) as [[[e|[]] w0] t0] eqn:Hc.
    { by rewrite (bind_err _ _ _ _ _ _ Hc) in Hrun. }
    rewrite (bind_ok _ _ _ _ _ _ Hc) in Hrun. rewrite (bind_ok _ _ _ _ _ _ Hc).
    destruct (for_each pre _ w0) as [[r' w0'] t0'] eqn:Hpre.
    injection Hrun as -> -> <-. rewrite (IH _ _ Hpre).
    destruct (for_each post _ w1) as [[r w2] t2]. by rewrite app_assoc.
Qed.

(** The first checked invocation that ends with a non-zero status ends the
    whole list: the invocations after it are not run. *)
Lemma run_steps_abort mmseqs pre c post w w1 t1 rc w2 :
  run_steps h mmseqs pre w = (inr tt, w1, t1) ->
  spawn h (mmseqs :: c) w1 = (inr rc, w2) -> rc <> 0 ->
  run_steps h mmseqs (pre ++ Checked c :: post) w
  = (inl (CalledProcessError rc (mmseqs :: c)), w2,
     t1 ++ [EvInfo (running_msg mmseqs c); EvSpawn (mmseqs :: c)]).
Proof.
  intros Hpre Hsp Hrc. rewrite (run_steps_app _ _ _ _ _ _ Hpre).
  unfold run_steps. simpl. unfold bind.
  by rewrite (run_mmseqs_nonzero _ _ _ _ _ Hsp Hrc).
Qed.

Lemma bind_ret_l {A B} (a : A) (k : A -> M B) w : bind (ret a) k w = k a w.
Proof. unfold bind, ret, ok. by destruct (k a w) as [[r w2] t2]. Qed.

(** The stage invocations of the monomer pipeline are its list of calls. *)
Lemma monomer_stages_calls a fr s1 s2 w :
  dbSuffix1 fr = Some s1 -> dbSuffix2 fr = Some s2 ->
  monomer_stages rt h a fr w = run_steps h (m_mmseqs a) (monomer_calls rt a fr s1 s2) w.
Proof.
  intros H1 H2. unfold monomer_stages, run_steps, monomer_calls. rewrite H1, H2.
  cbn [for_each run_step load_local].
  do 3 (apply bind_ext; intros _ ?).
  rewrite 2!bind_ret_l.
  do 4 (apply bind_ext; intros _ ?).
  symmetry.
  rewrite bind_assoc. apply bind_ext; intros _ ?. rewrite bind_ret_l.
  rewrite bind_assoc. apply bind_ext; intros _ ?. rewrite bind_ret_l.
  do 4 (apply bind_ext; intros _ ?).
  apply bind_ret_r.
Qed.

(** Likewise for the stages of the pairing pipeline. *)
Lemma pair_stages_calls a fr s1 w :
  dbSuffix1 fr = Some s1 ->
  pair_stages rt h a fr w = run_steps h (p_mmseqs a) (pair_calls rt a fr s1) w.
Proof.
  intros H1. unfold pair_stages, run_steps, pair_calls. rewrite H1.
  cbn [for_each run_step load_local].
  apply bind_ext; intros _ ?. rewrite bind_ret_l.
  do 3 (apply bind_ext; intros _ ?).
  symmetry. apply bind_ret_r.
Qed.

Lemma pair_cleanup_calls_run a w :
  pair_cleanup rt h a w
  = (run_steps h (p_mmseqs a) (pair_cleanup_calls rt a) ;;
     shutil_rmtree h (joinpath rt (p_base a) "tmp")) w.
Proof.
  unfold pair_cleanup, run_steps, pair_cleanup_calls.
  generalize pair_cleanup_names. intros names.
  assert (forall w', for_each names
            (fun name => run_mmseqs h (p_mmseqs a) (rmdb_params rt (p_base a) name)) w'
          = for_each (map (fun name => Checked (rmdb_params rt (p_base a) name)) names)
              (run_step h (p_mmseqs a)) w') as Heq.
  { induction names as [|n names IH]; intros w'; [done|].
    cbn [for_each map run_step]. apply bind_ext. intros _ ?. apply IH. }
  unfold bind. by rewrite Heq.
Qed.

(** *** Fatal stage failures *)

Lemma monomer_abort a w fr w0 t0 s1 s2 pre c post w1 t1 rc w2 :
  monomer_prelude rt h g a w = (inr fr, w0, t0) ->
  dbSuffix1 fr = Some s1 -> dbSuffix2 fr = Some s2 ->
  monomer_calls rt a fr s1 s2 = pre ++ Checked c :: post ->
  run_steps h (m_mmseqs a) pre w0 = (inr tt, w1, t1) ->
  spawn h (m_mmseqs a :: c) w1 = (inr rc, w2) -> rc <> 0 ->
  mmseqs_search_monomer rt h g a w
  = (inl (CalledProcessError rc (m_mmseqs a :: c)), w2,
     t0 ++ t1 ++ [EvInfo (running_msg (m_mmseqs a) c); EvSpawn (m_mmseqs a :: c)]).
Proof.
  intros Hpre H1 H2 Hcalls Hrun Hsp Hrc. unfold mmseqs_search_monomer.
  rewrite (bind_ok _ _ _ _ _ _ Hpre).
  assert (monomer_stages rt h a fr w0
          = (inl (CalledProcessError rc (m_mmseqs a :: c)), w2,
             t1 ++ [EvInfo (running_msg (m_mmseqs a) c); EvSpawn (m_mmseqs a :: c)]))
    as Hst.
  { rewrite (monomer_stages_calls _ _ _ _ _ H1 H2), Hcalls.
    by apply (run_steps_abort _ _ _ _ _ w1). }
  by rewrite (bind_err _ _ _ _ _ _ Hst).
Qed.

(** C4: in the monomer pipeline a non-zero exit status of any invocation
    made through [run_mmseqs] ends the run at once with
    [CalledProcessError]: the trace stops at that invocation, which was
    started once, and the world is the one the failed process left.  In
    particular, when the [align] invocation fails after the four
    invocations before it succeeded, nothing of filterresult, result2msa,
    the removals, mvdb, unpackdb, the unlinking and the rmtree is run. *)
Theorem checked_failure_aborts_monomer :
  (forall a w fr w0 t0 s1 s2 pre c post w1 t1 rc w2,
     monomer_prelude rt h g a w = (inr fr, w0, t0) ->
     dbSuffix1 fr = Some s1 -> dbSuffix2 fr = Some s2 ->
     monomer_calls rt a fr s1 s2 = pre ++ Checked c :: post ->
     run_steps h (m_mmseqs a) pre w0 = (inr tt, w1, t1) ->
     spawn h (m_mmseqs a :: c) w1 = (inr rc, w2) -> rc <> 0 ->
     mmseqs_search_monomer rt h g a w
     = (inl (CalledProcessError rc (m_mmseqs a :: c)), w2,
        t0 ++ t1 ++ [EvInfo (running_msg (m_mmseqs a) c); EvSpawn (m_mmseqs a :: c)]))
  /\ (forall a w fr w0 t0 s1 s2 w1 t1 rc w2,
     monomer_prelude rt h g a w = (inr fr, w0, t0) ->
     dbSuffix1 fr = Some s1 -> dbSuffix2 fr = Some s2 ->
     run_steps h (m_mmseqs a)
       [ Checked (search_params rt a fr); Checked (mvdb_profile_params rt a);
         Checked (lndb_params rt a); Checked (expandaln_params rt a fr s1 s2) ] w0
       = (inr tt, w1, t1) ->
     spawn h (m_mmseqs a :: align_params rt a fr s1) w1 = (inr rc, w2) -> rc <> 0 ->
     mmseqs_search_monomer rt h g a w
     = (inl (CalledProcessError rc (m_mmseqs a :: align_params rt a fr s1)), w2,
        t0 ++ t1 ++ [EvInfo (running_msg (m_mmseqs a) (align_params rt a fr s1));
                     EvSpawn (m_mmseqs a :: align_params rt a fr s1)])).
Proof.
  split.
  - intros. eapply monomer_abort; eassumption.
  - intros a w fr w0 t0 s1 s2 w1 t1 rc w2 Hpre H1 H2 Hrun Hsp Hrc.
    refine (monomer_abort a w fr w0 t0 s1 s2 _ _ _ w1 t1 rc w2 Hpre H1 H2 _ Hrun Hsp Hrc).
    reflexivity.
Qed.

End Runs.

(** In the world [align_fails] the run stops at the fifth process. *)
Lemma checked_failure_aborts_monomer_witness :
  mmseqs_search_monomer example_runtime align_fails (with_toggles false false)
    example_monomer_args 0%nat
  = (inl (CalledProcessError 1
            ("mmseqs" :: align_params example_runtime example_monomer_args
                           example_frame ".idx")),
     5%nat,
     snd (monomer_prelude example_runtime align_fails (with_toggles false false)
            example_monomer_args 0%nat)
     ++ snd (run_steps align_fails "mmseqs"
               (take 4 (monomer_calls example_runtime example_monomer_args
                          example_frame ".idx" ".idx")) 0%nat)
     ++ [EvInfo (running_msg "mmseqs"
                   (align_params example_runtime example_monomer_args
                      example_frame ".idx"));
         EvSpawn ("mmseqs" :: align_params example_runtime example_monomer_args
                                example_frame ".idx")]).
Proof.
  apply (proj2 (checked_failure_aborts_monomer example_runtime align_fails
                  (with_toggles false false))
           example_monomer_args 0%nat example_frame 0%nat _ ".idx" ".idx" 4%nat _ 1 5%nat);
    [vm_compute; reflexivity|reflexivity|reflexivity|vm_compute; reflexivity
    |reflexivity|lia].
Defined.

(** ** The free toggles *)

Section Toggles.

Context (rt : runtime) {W : Type} (h : handler W).

Lemma unbound_toggle_raises (g : namespace) a (w : W) :
  g !! "use_templates" = None \/ g !! "use_env" = None ->
  exists name,
    (name = "use_templates" \/ name = "use_env")
    /\ mmseqs_search_monomer rt h g a w = (inl (NameError name), w, []).
Proof.
  intros Hg. unfold mmseqs_search_monomer, monomer_prelude, used_dbs.
  cbv [bind load_global ret ok err].
  destruct (g !! "use_templates") as [v|] eqn:Ht.
  - destruct Hg as [Hg|Hg]; [done|]. rewrite Hg.
    exists "use_env". split; [by right|done].
  - exists "use_templates". split; [by left|done].
Qed.

(** C5: neither [use_templates] nor [use_env] is bound by the module (nor
    is a parameter of the function, whose parameters are the fields of
    [monomer_args]); the body reads both, so in the module as written every
    call ends with [NameError] on the first of them, whatever the
    arguments, before any [is_file] test and before any process is
    started; the same holds for any namespace that lacks one of the two. *)
Theorem toggles_are_free_variables :
  module_globals !! "use_templates" = None
  /\ module_globals !! "use_env" = None
  /\ (forall a (w : W),
        mmseqs_search_monomer rt h module_globals a w
        = (inl (NameError "use_templates"), w, []))
  /\ (forall (g : namespace) a (w : W),
        g !! "use_templates" = None \/ g !! "use_env" = None ->
        exists name,
          (name = "use_templates" \/ name = "use_env")
          /\ mmseqs_search_monomer rt h g a w = (inl (NameError name), w, [])).
Proof.
  assert (module_globals !! "use_templates" = None) as Ht by (vm_compute; reflexivity).
  assert (module_globals !! "use_env" = None) as He by (vm_compute; reflexivity).
  split_and!; [done|done| |apply unbound_toggle_raises].
  intros a w. unfold mmseqs_search_monomer, monomer_prelude, used_dbs.
  cbv [bind load_global ret ok err]. by rewrite Ht.
Qed.

End Toggles.

(** With only [use_templates] bound, the call fails on [use_env]. *)
Lemma toggles_are_free_variables_witness :
  exists name,
    (name = "use_templates" \/ name = "use_env")
    /\ mmseqs_search_monomer example_runtime align_fails
         (<["use_templates" := PyBool false]> module_globals) example_monomer_args 0%nat
       = (inl (NameError name), 0%nat, []).
Proof.
  apply (proj2 (proj2 (proj2 (toggles_are_free_variables example_runtime align_fails)))).
  right. vm_compute. reflexivity.
Defined.

(** ** The source of search_monomer.py *)

Lemma search_pair_compiles : compile_module search_pair_lines = ok tt.
Proof. vm_compute. reflexivity. Qed.

(** C10: search_monomer.py does not compile.  The statement at line 186
    stands at column 4 and is not a block header; the logical line that
    follows it, the string literal starting at line 187, stands at column
    8: an unexpected indent.  Running the file as a script therefore
    raises before anything of [main] is executed: no event, world
    unchanged, whatever the arguments and the queries. *)
Theorem search_monomer_does_not_compile :
  search_monomer_lines !! 86%nat = Some (ll 186 4 false)
  /\ search_monomer_lines !! 87%nat = Some (ll 187 8 false)
  /\ compile_module search_monomer_lines
     = err (IndentationError "unexpected indent" 187)
  /\ forall (rt : runtime) (W : Type) (h : handler W) (g : namespace)
            (args : cli_args) (queries : list query) (w : W),
       search_monomer_script rt h g args queries w
       = (inl (IndentationError "unexpected indent" 187), w, []).
Proof.
  assert (compile_module search_monomer_lines
          = err (IndentationError "unexpected indent" 187)) as Hc
    by (vm_compute; reflexivity).
  split_and!; [reflexivity|reflexivity|exact Hc|].
  intros. unfold search_monomer_script, run_script. by rewrite Hc.
Qed.

(** ** The filter branch *)

Section Filter.

Context (rt : runtime) {W : Type} (h : handler W) (g : namespace).

Local Abbreviation M := (@M W).
Notation "x <- m ;; k" := (bind m (fun x => k))
  (at level 100, m at next level, right associativity).
Notation "m ;; k" := (bind m (fun _ => k))
  (at level 100, right associativity).

Implicit Types (P : list string -> Prop).

Lemma establishes_ret {A} (x : A) P (Q : A -> Prop) : Q x -> establishes (W:=W) (ret x) P Q.
Proof. intros HQ w. split; [constructor|]. by intros ? [= <-]. Qed.

Lemma establishes_raise {A} e P (Q : A -> Prop) : establishes (W:=W) (raise e) P Q.
Proof. intros w. split; [constructor|]. by intros ? [=]. Qed.

Lemma establishes_bind {A B} (m : M A) (k : A -> M B) P (Q1 : A -> Prop) (Q : B -> Prop) :
  establishes m P Q1 ->
  (forall x, Q1 x -> establishes (k x) P Q) ->
  establishes (bind m k) P Q.
Proof.
  intros Hm Hk w. destruct (Hm w) as [Ht HQ]. unfold bind.
  destruct (m w) as [[[e|x] w1] t1]; simpl in *; [split; [done|by intros ? [=]]|].
  destruct (Hk x (HQ x eq_refl) w1) as [Ht2 HQ2].
  destruct (k x w1) as [[r w2] t2]; simpl in *.
  unfold spawned in *. rewrite omap_app. split; [by apply Forall_app|done].
Qed.

Lemma establishes_weaken {A} (m : M A) P (Q Q' : A -> Prop) :
  establishes m P Q -> (forall x, Q x -> Q' x) -> establishes m P Q'.
Proof. intros Hm HQ w. destruct (Hm w) as [Ht Hx]. split; [done|]. eauto. Qed.

Lemma establishes_load_global name P :
  establishes (W:=W) (load_global g name) P (fun _ => True).
Proof. intros w. unfold load_global. destruct (g !! name); split; done || constructor. Qed.

Lemma establishes_load_local name v P :
  establishes (W:=W) (load_local name v) P (fun s => v = Some s).
Proof.
  destruct v as [s|]; simpl.
  - by apply establishes_ret.
  - apply establishes_raise.
Qed.

Lemma establishes_log_info msg P : establishes (W:=W) (log_info msg) P (fun _ => True).
Proof. intros w. split; [constructor|done]. Qed.

Lemma establishes_is_file p P : establishes (path_is_file h p) P (fun _ => True).
Proof. intros w. split; [constructor|done]. Qed.

Lemma establishes_glob dir pat P : establishes (path_glob h dir pat) P (fun _ => True).
Proof. intros w. split; [constructor|done]. Qed.

Lemma establishes_file_op op ev P :
  (forall argv, ev <> EvSpawn argv) ->
  establishes (W:=W) (lift_file_op op ev) P (fun _ => True).
Proof.
  intros Hev w. unfold lift_file_op. destruct (op w) as [[e|] w']; simpl.
  all: split; [|done]; destruct ev; try constructor; by edestruct Hev.
Qed.

Lemma establishes_subprocess_run argv P :
  P argv -> establishes (subprocess_run h argv) P (fun _ => True).
Proof.
  intros HP w. unfold subprocess_run. destruct (spawn h argv w) as [r w']; simpl.
  split; [by repeat constructor|done].
Qed.

Lemma establishes_run_mmseqs mmseqs params P :
  P (mmseqs :: params) -> establishes (run_mmseqs h mmseqs params) P (fun _ => True).
Proof.
  intros HP. unfold run_mmseqs, subprocess_check_call.
  eapply establishes_bind; [apply establishes_log_info|]. intros _ _.
  eapply establishes_bind; [by apply establishes_subprocess_run|]. intros rc _.
  destruct (rc =? 0); [by apply establishes_ret|apply establishes_raise].
Qed.

Lemma establishes_for_each {A} (l : list A) (body : A -> M unit) P :
  (forall x, establishes (body x) P (fun _ => True)) ->
  establishes (for_each l body) P (fun _ => True).
Proof.
  intros Hbody. induction l as [|x l IH]; simpl; [by apply establishes_ret|].
  eapply establishes_bind; [apply Hbody|]. by intros _ _.
Qed.

Lemma establishes_for_fold {A S} (l : list A) (body : A -> S -> M S) P (I : S -> Prop) :
  (forall x s, I s -> establishes (body x s) P I) ->
  forall s, I s -> establishes (for_fold l body s) P I.
Proof.
  intros Hbody. induction l as [|x l IH]; intros s Hs; simpl; [by apply establishes_ret|].
  eapply establishes_bind; [by apply Hbody|]. apply IH.
Qed.

Lemma filter_values_initial a : filter_values a (initial_frame a).
Proof. unfold filter_values, initial_frame. by destruct (py_truthy (m_filter a)). Qed.

Lemma filter_values_index a fr :
  filter_values a fr ->
  filter_values a (set_index_present fr) /\ filter_values a (set_index_absent fr).
Proof. unfold filter_values. by destruct (py_truthy (m_filter a)). Qed.

Lemma check_db_keeps_filter_values a dbbase db fr P :
  filter_values a fr -> establishes (check_db rt h dbbase db fr) P (filter_values a).
Proof.
  intros Hfr. destruct (filter_values_index a fr Hfr) as [Hp Ha]. unfold check_db.
  eapply establishes_bind; [apply establishes_is_file|]. intros [] _; simpl;
    [|apply establishes_raise].
  eapply establishes_bind; [apply establishes_is_file|]. intros [] _;
    [by apply establishes_ret|].
  eapply establishes_bind; [apply establishes_is_file|]. intros [] _;
    [by apply establishes_ret|].
  eapply establishes_bind; [apply establishes_log_info|]. intros _ _.
  by apply establishes_ret.
Qed.

Lemma prelude_filter_values a P :
  establishes (monomer_prelude rt h g a) P (filter_values a).
Proof.
  unfold monomer_prelude, used_dbs.
  eapply establishes_bind with (Q1 := fun _ => True).
  - eapply establishes_bind; [apply establishes_load_global|]. intros vt _.
    eapply establishes_bind; [apply establishes_load_global|]. intros ve _.
    by apply establishes_ret.
  - intros dbs _. apply establishes_for_fold; [|apply filter_values_initial].
    intros db fr Hfr. by apply check_db_keeps_filter_values.
Qed.

Lemma teardown_starts_no_process a P :
  establishes (monomer_teardown rt h g a) P (fun _ => True).
Proof.
  unfold monomer_teardown, path_unlink, shutil_rmtree.
  eapply establishes_bind; [apply establishes_glob|]. intros files _.
  eapply establishes_bind.
  { apply establishes_for_each. intros f. by apply establishes_file_op. }
  intros _ _. eapply establishes_bind; [by apply establishes_file_op|]. intros _ _.
  eapply establishes_bind; [apply establishes_load_global|]. intros vt _.
  eapply establishes_bind.
  { destruct (py_truthy vt); [by apply establishes_file_op|by apply establishes_ret]. }
  intros _ _. eapply establishes_bind; [apply establishes_load_global|]. intros ve _.
  destruct (py_truthy ve); [by apply establishes_file_op|by apply establishes_ret].
Qed.

Lemma stages_start_the_listed_commands a fr :
  filter_values a fr ->
  establishes (monomer_stages rt h a fr)
    (fun argv => exists fr' s1 s2,
       filter_values a fr' /\ argv ∈ monomer_commands rt a fr' s1 s2)
    (fun _ => True).
Proof.
  intros Hfr. unfold monomer_stages.
  assert (forall s1 s2 c, c ∈ monomer_calls rt a fr s1 s2 ->
            exists fr' s1' s2', filter_values a fr'
              /\ (m_mmseqs a :: step_params c) ∈ monomer_commands rt a fr' s1' s2') as Hin.
  { intros s1 s2 c Hc. exists fr, s1, s2. split; [done|].
    unfold monomer_commands. rewrite list_elem_of_In.
    apply (in_map (fun c => m_mmseqs a :: step_params c)).
    by rewrite <- list_elem_of_In. }
  do 3 (eapply establishes_bind;
        [apply establishes_run_mmseqs, (Hin "" "" (Checked _)); repeat constructor|];
        intros _ _).
  eapply establishes_bind; [apply establishes_load_local|]. intros s1 _.
  eapply establishes_bind; [apply establishes_load_local|]. intros s2 _.
  do 4 (eapply establishes_bind;
        [apply establishes_run_mmseqs, (Hin s1 s2 (Checked _)); repeat constructor|];
        intros _ _).
  do 2 (eapply establishes_bind;
        [apply establishes_subprocess_run, (Hin s1 s2 (Unchecked _)); repeat constructor|];
        intros _ _).
  do 4 (eapply establishes_bind;
        [apply establishes_run_mmseqs, (Hin s1 s2 (Checked _)); repeat constructor|];
        intros _ _).
  apply establishes_run_mmseqs, (Hin s1 s2 (Checked _)); repeat constructor.
Qed.

(** C1: every process a call of [mmseqs_search_monomer] starts is one of
    the command lines of the pipeline built from values of [align_eval],
    [qsc] and [max_accept] that are 10, 0.8 and 100000 when [filter] is
    true, and the caller's when it is false.  With [filter] true the
    [align] command carries [-e 10 --max-accept 100000] and the
    [filterresult] command [--qsc 0.8], and the whole run is the same for
    any values the caller supplies; with [filter] false they carry
    [str] of the caller's values. *)
Theorem filter_override_reaches_every_stage (a : monomer_args) (w : W) :
  Forall (fun argv => exists fr s1 s2,
            filter_values a fr /\ argv ∈ monomer_commands rt a fr s1 s2)
         (spawned (snd (mmseqs_search_monomer rt h g a w)))
  /\ (forall fr s1, filter_values a fr ->
        if py_truthy (m_filter a) then
          align_params rt a fr s1 !! 7%nat = Some "-e"
          /\ align_params rt a fr s1 !! 8%nat = Some "10"
          /\ align_params rt a fr s1 !! 9%nat = Some "--max-accept"
          /\ align_params rt a fr s1 !! 10%nat = Some "100000"
          /\ filterresult_params rt a fr s1 !! 9%nat = Some "--qsc"
          /\ filterresult_params rt a fr s1 !! 10%nat = Some (float_repr rt 0.8)
        else
          align_params rt a fr s1 !! 8%nat = Some (py_str rt (m_align_eval a))
          /\ align_params rt a fr s1 !! 10%nat = Some (py_str rt (m_max_accept a))
          /\ filterresult_params rt a fr s1 !! 10%nat = Some (py_str rt (m_qsc a)))
  /\ (forall ae q ma,
        if py_truthy (m_filter a) then
          mmseqs_search_monomer rt h g (with_caller_values a ae q ma) w
          = mmseqs_search_monomer rt h g (with_caller_values a (PyInt 10) (PyFloat 0.8)
                                            (PyInt 100000)) w
        else
          initial_frame (with_caller_values a ae q ma)
          = {| align_eval := ae; qsc := q; max_accept := ma;
               db_load_mode := m_db_load_mode a; dbSuffix1 := None; dbSuffix2 := None |}).
Proof.
  split_and!.
  - assert (establishes (mmseqs_search_monomer rt h g a)
              (fun argv => exists fr s1 s2,
                 filter_values a fr /\ argv ∈ monomer_commands rt a fr s1 s2)
              (fun _ => True)) as Hrun; [|apply Hrun].
    unfold mmseqs_search_monomer.
    eapply establishes_bind; [apply prelude_filter_values|]. intros fr Hfr.
    eapply establishes_bind; [by apply stages_start_the_listed_commands|]. intros _ _.
    apply teardown_starts_no_process.
  - intros fr s1. unfold filter_values.
    destruct (py_truthy (m_filter a)); intros (Ha & Hq & Hm);
      unfold align_params, filterresult_params; cbn [lookup list_lookup];
      rewrite Ha, Hq, Hm; by split_and!.
  - intros ae q ma. destruct (py_truthy (m_filter a)) eqn:Hf.
    + unfold mmseqs_search_monomer, monomer_prelude, initial_frame. cbn [with_caller_values m_filter].
      by rewrite Hf.
    + unfold initial_frame. cbn [with_caller_values m_filter]. by rewrite Hf.
Qed.

End Filter.

(** The filter branch on the example arguments, whose [filter] is [True]. *)
Lemma filter_override_reaches_every_stage_witness :
  align_params example_runtime example_monomer_args example_frame ".idx" !! 7%nat
    = Some "-e"
  /\ align_params example_runtime example_monomer_args example_frame ".idx" !! 8%nat
    = Some "10"
  /\ align_params example_runtime example_monomer_args example_frame ".idx" !! 9%nat
    = Some "--max-accept"
  /\ align_params example_runtime example_monomer_args example_frame ".idx" !! 10%nat
    = Some "100000"
  /\ filterresult_params example_runtime example_monomer_args example_frame ".idx" !! 9%nat
    = Some "--qsc"
  /\ filterresult_params example_runtime example_monomer_args example_frame ".idx" !! 10%nat
    = Some "0.8".
Proof.
  apply (proj1 (proj2 (filter_override_reaches_every_stage example_runtime align_fails
                         (with_toggles false false) example_monomer_args 0%nat))
           example_frame ".idx").
  vm_compute. by split_and!.
Defined.

(** ** Index detection *)

Section Indexes.

Context (rt : runtime) {W : Type} (h : handler W) (g : namespace).

Notation "x <- m ;; k" := (bind m (fun x => k))
  (at level 100, m at next level, right associativity).
Notation "m ;; k" := (bind m (fun _ => k))
  (at level 100, right associativity).

Lemma check_db_absent dbbase db fr (w : W) :
  is_file h (joinpath rt dbbase (db +:+ ".dbtype")) w = true ->
  is_file h (joinpath rt dbbase (db +:+ ".idx")) w = false ->
  is_file h (joinpath rt dbbase (db +:+ ".idx.index")) w = false ->
  check_db rt h dbbase db fr w
  = (inr (set_index_absent fr), w,
     [EvIsFile (joinpath rt dbbase (db +:+ ".dbtype"));
      EvIsFile (joinpath rt dbbase (db +:+ ".idx"));
      EvIsFile (joinpath rt dbbase (db +:+ ".idx.index"));
      EvInfo "Search does not use index"]).
Proof.
  intros Ht Hi Hii. unfold check_db.
  cbv [bind path_is_file log_info ret raise ok err].
  rewrite Ht. cbn. rewrite Hi. cbn. by rewrite Hii.
Qed.

Lemma check_db_present dbbase db fr (w : W) :
  is_file h (joinpath rt dbbase (db +:+ ".dbtype")) w = true ->
  is_file h (joinpath rt dbbase (db +:+ ".idx")) w = true
  \/ is_file h (joinpath rt dbbase (db +:+ ".idx.index")) w = true ->
  exists t, check_db rt h dbbase db fr w = (inr (set_index_present fr), w, t).
Proof.
  intros Ht Hi. unfold check_db.
  cbv [bind path_is_file log_info ret raise ok err]. rewrite Ht. cbn.
  destruct (is_file h (joinpath rt dbbase (db +:+ ".idx")) w) eqn:Hidx; [by eexists|].
  destruct Hi as [Hi|Hi]; [congruence|]. cbn. rewrite Hi. by eexists.
Qed.

Lemma for_fold_snoc {A S} (l : list A) (x : A) (body : A -> S -> @M W S) (s : S) w :
  for_fold (l ++ [x]) body s w = (s' <- for_fold l body s ;; body x s') w.
Proof.
  revert s w. induction l as [|y l IH]; intros s w; cbn [for_fold app].
  - rewrite bind_ret_l. apply bind_ret_r_any.
  - rewrite bind_assoc. apply bind_ext. intros s' w'. apply IH.
Qed.

End Indexes.

(** ** Cleanup *)

Section Cleanup.

Context (rt : runtime) {W : Type} (h : handler W) (g : namespace).

Notation "x <- m ;; k" := (bind m (fun x => k))
  (at level 100, m at next level, right associativity).
Notation "m ;; k" := (bind m (fun _ => k))
  (at level 100, right associativity).

(** C6, amended: the cleanup of the pairing pipeline issues its nine
    removals in order through [run_mmseqs]; one that ends with a non-zero
    status raises and the removals after it and the rmtree are not run;
    when all nine end with status 0 the rmtree follows; and the cleanup is
    not reached when a stage has failed. *)
Theorem pair_cleanup_is_checked :
  (forall a (w w1 w2 : W) pre name post t1 rc,
     pair_cleanup_names = pre ++ name :: post ->
     run_steps h (p_mmseqs a)
       (map (fun n => Checked (rmdb_params rt (p_base a) n)) pre) w = (inr tt, w1, t1) ->
     spawn h (p_mmseqs a :: rmdb_params rt (p_base a) name) w1 = (inr rc, w2) ->
     rc <> 0 ->
     pair_cleanup rt h a w
     = (inl (CalledProcessError rc (p_mmseqs a :: rmdb_params rt (p_base a) name)), w2,
        t1 ++ [EvInfo (running_msg (p_mmseqs a) (rmdb_params rt (p_base a) name));
               EvSpawn (p_mmseqs a :: rmdb_params rt (p_base a) name)]))
  /\ (forall a (w w1 : W) t1,
     run_steps h (p_mmseqs a) (pair_cleanup_calls rt a) w = (inr tt, w1, t1) ->
     pair_cleanup rt h a w
     = (let '(r, w2, t2) := shutil_rmtree h (joinpath rt (p_base a) "tmp") w1 in
        (r, w2, t1 ++ t2)))
  /\ (forall a (w w0 w1 : W) fr t0 e t1,
     check_db rt h (p_dbbase a) (p_uniref_db a) (pair_initial_frame a) w = (inr fr, w0, t0) ->
     pair_stages rt h a fr w0 = (inl e, w1, t1) ->
     mmseqs_search_pair rt h a w = (inl e, w1, t0 ++ t1)).
Proof.
  split_and!.
  - intros a w w1 w2 pre name post t1 rc Hnames Hrun Hsp Hrc.
    rewrite pair_cleanup_calls_run.
    assert (run_steps h (p_mmseqs a) (pair_cleanup_calls rt a) w
            = (inl (CalledProcessError rc (p_mmseqs a :: rmdb_params rt (p_base a) name)),
               w2,
               t1 ++ [EvInfo (running_msg (p_mmseqs a) (rmdb_params rt (p_base a) name));
                      EvSpawn (p_mmseqs a :: rmdb_params rt (p_base a) name)])) as Hfail.
    { unfold pair_cleanup_calls. rewrite Hnames, map_app. cbn [map].
      by apply (run_steps_abort h _ _ _ _ _ w1). }
    by rewrite (bind_err _ _ _ _ _ _ Hfail).
  - intros a w w1 t1 Hrun. rewrite pair_cleanup_calls_run.
    by rewrite (bind_ok _ _ _ _ _ _ Hrun).
  - intros a w w0 w1 fr t0 e t1 Hdb Hst. unfold mmseqs_search_pair.
    rewrite (bind_ok _ _ _ _ _ _ Hdb). by rewrite (bind_err _ _ _ _ _ _ Hst).
Qed.

End Cleanup.

(** C6 as stated fails: when the Search Capability ends the removal of
    [res], a database this pipeline never creates, with status 1, the
    pairing pipeline ends with [CalledProcessError] at that removal. *)
Lemma pair_cleanup_failure_is_fatal :
  fst (fst (mmseqs_search_pair example_runtime rmdb_res_fails example_pair_args 0%nat))
  = inl (CalledProcessError 1 ["mmseqs"; "rmdb"; "/out/res"])
  /\ last (snd (mmseqs_search_pair example_runtime rmdb_res_fails example_pair_args 0%nat))
     = Some (EvSpawn ["mmseqs"; "rmdb"; "/out/res"])
  /\ map (fun argv => argv !! 1%nat)
       (spawned (snd (mmseqs_search_pair example_runtime rmdb_res_fails
                        example_pair_args 0%nat)))
     = map Some ["pairaln"; "align"; "pairaln"; "result2msa"; "unpackdb";
                 "rmdb"; "rmdb"; "rmdb"].
Proof. vm_compute. by split_and!. Qed.

(** The same failure, at the cleanup of the pairing pipeline. *)
Lemma pair_cleanup_is_checked_witness :
  pair_cleanup example_runtime rmdb_res_fails example_pair_args 5%nat
  = (inl (CalledProcessError 1 ["mmseqs"; "rmdb"; "/out/res"]), 8%nat,
     snd (run_steps rmdb_res_fails "mmseqs"
            [Checked ["rmdb"; "/out/qdb"]; Checked ["rmdb"; "/out/qdb_h"]] 5%nat)
     ++ [EvInfo "Running mmseqs rmdb /out/res"; EvSpawn ["mmseqs"; "rmdb"; "/out/res"]]).
Proof.
  apply (proj1 (pair_cleanup_is_checked example_runtime rmdb_res_fails)
           example_pair_args 5%nat 7%nat 8%nat ["qdb"; "qdb_h"] "res"
           ["res_exp"; "res_exp_realign"; "res_exp_realign_pair";
            "res_exp_realign_pair_bt"; "res_final"; "pair.a3m"] _ 1);
    [reflexivity|vm_compute; reflexivity|reflexivity|lia].
Defined.

(** ** The pairing parameters *)

(** C9 as stated fails: the second [pairaln] invocation, the third process
    of the pairing pipeline, carries no [-e] option and no [inf]; the
    unbounded e-value is on the [align] invocation between the two
    [pairaln] passes. *)
Lemma second_pairaln_has_no_evalue :
  spawned (snd (mmseqs_search_pair example_runtime all_succeed example_pair_args 0%nat))
    !! 2%nat
  = Some ["mmseqs"; "pairaln"; "/out/qdb"; "/db/uniref30_2302_db";
          "/out/res_exp_realign_pair_bt"; "/out/res_final"; "--db-load-mode"; "0";
          "--pairing-mode"; "0"; "--pairing-dummy-mode"; "1"; "--threads"; "64"]
  /\ bool_decide ("-e" ∈ pairaln2_params example_runtime example_pair_args
                          (set_index_absent (pair_initial_frame example_pair_args)))
     = false
  /\ bool_decide ("inf" ∈ pairaln2_params example_runtime example_pair_args
                           (set_index_absent (pair_initial_frame example_pair_args)))
     = false
  /\ spawned (snd (mmseqs_search_pair example_runtime all_succeed example_pair_args 0%nat))
       !! 1%nat
     = Some ["mmseqs"; "align"; "/out/qdb"; "/db/uniref30_2302_db_seq";
             "/out/res_exp_realign_pair"; "/out/res_exp_realign_pair_bt";
             "--db-load-mode"; "0"; "-e"; "inf"; "-a"; "--threads"; "64"].
Proof. vm_compute. by split_and!. Qed.

(** * Further properties of the code *)

(** ** The lookup table and the query file *)

Lemma enumerate_from_length {A} (l : list A) : forall n,
  length (enumerate_from n l) = length l.
Proof. induction l as [|x l IH]; intros n; simpl; [done|by rewrite IH]. Qed.

Lemma job_fasta_records_length (j : job) :
  length (job_fasta_records j) = length (query_seqs_unique j).
Proof. unfold job_fasta_records, enumerate. by rewrite length_map, enumerate_from_length. Qed.

Lemma lookup_records_length (js : list job) : forall id fn,
  length (lookup_records js id fn) = length (query_fasta_records js).
Proof.
  induction js as [|j js IH]; intros id fn; [done|].
  unfold query_fasta_records in *. cbn [lookup_records flat_map].
  rewrite !length_app, IH. f_equal.
  unfold enumerate. by rewrite job_fasta_records_length, length_map, enumerate_from_length.
Qed.

Lemma map_seq_offset {B} (f : nat -> B) (k n : nat) : forall m,
  map f (seq (k + m) n) = map (fun i => f (k + i)%nat) (seq m n).
Proof.
  induction n as [|n IH]; intros m; simpl; [done|].
  f_equal. rewrite <- Nat.add_succ_r. apply IH.
Qed.

Lemma enumerate_from_ids {A} (l : list A) (name : string) (id fn : Z) : forall n,
  map (fun r : Z * string * Z => fst (fst r))
      (map (fun '(i, _) => (id + Z.of_nat i, name, fn)) (enumerate_from n l))
  = map (fun i => id + Z.of_nat i) (seq n (length l)).
Proof. induction l as [|x l IH]; intros n; simpl; [done|by rewrite IH]. Qed.

Lemma lookup_records_ids (js : list job) : forall id fn,
  map (fun r : Z * string * Z => fst (fst r)) (lookup_records js id fn)
  = map (fun i => id + Z.of_nat i) (seq 0 (length (query_fasta_records js))).
Proof.
  induction js as [|j js IH]; intros id fn; [done|].
  unfold query_fasta_records in *. cbn [lookup_records flat_map].
  rewrite map_app, length_app, seq_app, map_app, IH, job_fasta_records_length.
  unfold enumerate. rewrite enumerate_from_ids. f_equal.
  cbn [Nat.add].
  rewrite <- (Nat.add_0_r (length (query_seqs_unique j))).
  rewrite map_seq_offset. apply map_ext. intros i. lia.
Qed.

(** X1: the ids of [qdb.lookup] are 0, 1, 2, ... without gap, one line for
    each record of [query.fas] and in the same order, whatever the jobs. *)
Theorem lookup_ids_follow_query_file (queries_unique : list job) :
  length (lookup_records queries_unique 0 0)
  = length (query_fasta_records queries_unique)
  /\ map (fun r : Z * string * Z => fst (fst r)) (lookup_records queries_unique 0 0)
     = map Z.of_nat (seq 0 (length (query_fasta_records queries_unique))).
Proof.
  split; [apply lookup_records_length|].
  rewrite lookup_records_ids. apply map_ext. intros i. lia.
Qed.

Lemma enumerate_from_names {A} (l : list A) (name : string) (id fn : Z) : forall n,
  map (fun r : Z * string * Z => (snd (fst r), snd r))
      (map (fun '(i, _) => (id + Z.of_nat i, name, fn)) (enumerate_from n l))
  = replicate (length l) (name, fn).
Proof. induction l as [|x l IH]; intros n; simpl; [done|by rewrite IH]. Qed.

Lemma lookup_records_names (js : list job) : forall id n,
  map (fun r : Z * string * Z => (snd (fst r), snd r)) (lookup_records js id (Z.of_nat n))
  = flat_map (fun '(k, j) => replicate (length (query_seqs_unique j))
                                       (raw_jobname j, Z.of_nat k))
             (enumerate_from n js).
Proof.
  induction js as [|j js IH]; intros id n; [done|].
  cbn [lookup_records enumerate_from flat_map].
  rewrite map_app. unfold enumerate. rewrite enumerate_from_names. f_equal.
  replace (Z.of_nat n + 1) with (Z.of_nat (S n)) by lia. apply IH.
Qed.

(** X2: the lines of [qdb.lookup] come job after job: the job at position
    [k] of [queries_unique] contributes one line for each of its distinct
    sequences, every one carrying the job's name and the file number [k];
    a job without sequences contributes none. *)
Theorem lookup_lines_grouped_by_job (queries_unique : list job) :
  map (fun r : Z * string * Z => (snd (fst r), snd r)) (lookup_records queries_unique 0 0)
  = flat_map (fun '(k, j) => replicate (length (query_seqs_unique j))
                                       (raw_jobname j, Z.of_nat k))
             (enumerate queries_unique).
Proof. apply (lookup_records_names queries_unique 0 0%nat). Qed.

(** ** Normalising queries without repeated sequences *)

Lemma filter_id_elem (P : string -> Prop) `{forall x, Decision (P x)} (l : list string) :
  (forall x, x ∈ l -> P x) -> filter P l = l.
Proof.
  induction l as [|x l IH]; intros HP; [done|].
  rewrite filter_cons_True by (apply HP; left).
  rewrite IH; [done|]. intros y Hy. apply HP. by right.
Qed.

Lemma first_seen_NoDup (raw : list string) : NoDup raw -> first_seen raw = raw.
Proof.
  induction 1 as [|x l Hx Hnd IH]; simpl; [done|].
  rewrite IH. f_equal. apply filter_id_elem. intros y Hy ->. done.
Qed.

Lemma occurrences_absent (s : string) (raw : list string) :
  s ∉ raw -> occurrences s raw = 0.
Proof.
  induction raw as [|x l IH]; intros Hs; [done|].
  apply not_elem_of_cons in Hs as [Hsx Hs].
  rewrite occurrences_cons, bool_decide_eq_false_2, IH by done. done.
Qed.

Lemma occurrences_NoDup (s : string) (raw : list string) :
  NoDup raw -> s ∈ raw -> occurrences s raw = 1.
Proof.
  induction 1 as [|x l Hx Hnd IH]; intros Hs.
  - by apply elem_of_nil in Hs.
  - rewrite occurrences_cons. case_bool_decide as Hxs.
    + subst x. by rewrite occurrences_absent.
    + apply elem_of_cons in Hs as [->|Hs]; [done|]. rewrite IH by done. lia.
Qed.

(** X3: a query whose sequences are pairwise different (a single string in
    particular) comes out of the normaliser unchanged, in the same order,
    with cardinality 1 for every sequence. *)
Theorem normalize_query_without_repeats (q : query) :
  NoDup (as_sequence_list (q_query_sequences q)) ->
  normalize_query q
  = ok {| raw_jobname := q_raw_jobname q;
          query_seqs_unique := as_sequence_list (q_query_sequences q);
          query_seqs_cardinality :=
            replicate (length (as_sequence_list (q_query_sequences q))) 1 |}.
Proof.
  intros Hnd.
  destruct (normalize_query_spec q) as (card & Hrun & _ & _ & Hlen & Hocc & _).
  rewrite Hrun. rewrite first_seen_NoDup in * by done.
  do 2 f_equal. apply list_eq. intros i.
  destruct (as_sequence_list (q_query_sequences q) !! i) as [s|] eqn:Hi.
  - rewrite (Hocc i s Hi), occurrences_NoDup; [|done|by eapply list_elem_of_lookup_2].
    symmetry. apply lookup_replicate_2. by eapply lookup_lt_Some.
  - apply lookup_ge_None in Hi.
    rewrite (lookup_ge_None_2 card) by lia.
    symmetry. apply lookup_ge_None_2. rewrite length_replicate. lia.
Qed.

Lemma normalize_query_without_repeats_witness :
  NoDup (as_sequence_list (ManySeqs ["AAA"; "BBB"]))
  /\ normalize_query {| q_raw_jobname := "X"; q_query_sequences := ManySeqs ["AAA"; "BBB"];
                        q_a3m_lines := None |}
     = ok {| raw_jobname := "X"; query_seqs_unique := ["AAA"; "BBB"];
             query_seqs_cardinality := [1; 1] |}.
Proof.
  assert (NoDup (as_sequence_list (ManySeqs ["AAA"; "BBB"]))) as Hnd.
  { apply (bool_decide_unpack _). vm_compute. exact I. }
  split; [exact Hnd|].
  apply (normalize_query_without_repeats
           {| q_raw_jobname := "X"; q_query_sequences := ManySeqs ["AAA"; "BBB"];
              q_a3m_lines := None |} Hnd).
Defined.

(** ** What the query file contains *)

Lemma enumerate_from_snd (l : list string) : forall n,
  map snd (map (fun '(i, seq) => (101 + Z.of_nat i, seq)) (enumerate_from n l)) = l.
Proof. induction l as [|x l IH]; intros n; simpl; [done|by rewrite IH]. Qed.

Lemma job_fasta_sequences (j : job) :
  map snd (job_fasta_records j) = query_seqs_unique j.
Proof. apply enumerate_from_snd. Qed.

Lemma string_append_assoc (a b c : string) : (a +:+ b) +:+ c = a +:+ (b +:+ c).
Proof.
  induction a as [|x a IH]; [done|].
  change (String x ((a +:+ b) +:+ c) = String x (a +:+ b +:+ c)). by rewrite IH.
Qed.

Lemma concat_text_app (l1 l2 : list string) :
  foldr String.append "" (l1 ++ l2)
  = foldr String.append "" l1 +:+ foldr String.append "" l2.
Proof.
  induction l1 as [|x l1 IH]; cbn [foldr app]; [done|].
  by rewrite IH, string_append_assoc.
Qed.

(** X4: [main] always gets through its first loop, and [query.fas] then
    lists, job after job in the order of [queries], the distinct sequences
    of each job in first-seen order: a sequence shared by two jobs is
    written once for each of them.  The text for a list of jobs is the
    concatenation of the texts of its parts. *)
Theorem query_file_lists_jobs_in_order :
  (forall queries : list query,
     exists js,
       normalize_queries queries = ok js
       /\ map raw_jobname js = map q_raw_jobname queries
       /\ map snd (query_fasta_records js)
          = flat_map (fun q => first_seen (as_sequence_list (q_query_sequences q))) queries)
  /\ (forall js1 js2 : list job,
        query_fasta_text (js1 ++ js2) = query_fasta_text js1 +:+ query_fasta_text js2).
Proof.
  split.
  - induction queries as [|q qs (js & Hjs & Hnames & Hseqs)]; simpl.
    + exists []. by split_and!.
    + destruct (normalize_query_spec q) as (card & Hq & _).
      rewrite Hq, Hjs. simpl. eexists. split; [done|]. split.
      * simpl. by rewrite Hnames.
      * unfold query_fasta_records in *. cbn [flat_map].
        by rewrite map_app, job_fasta_sequences, Hseqs.
  - intros js1 js2. unfold query_fasta_text, query_fasta_records.
    by rewrite flat_map_app, map_app, concat_text_app.
Qed.

(** ** The database checks *)

Section Databases.

Context (rt : runtime) {W : Type} (h : handler W) (g : namespace).

Notation "x <- m ;; k" := (bind m (fun x => k))
  (at level 100, m at next level, right associativity).
Notation "m ;; k" := (bind m (fun _ => k))
  (at level 100, right associativity).

Lemma check_db_missing dbbase db fr (w : W) :
  has_dbtype rt h dbbase w db = false ->
  check_db rt h dbbase db fr w
  = (inl (FileNotFoundError ("Database " +:+ db +:+ " does not exist")), w,
     [EvIsFile (joinpath rt dbbase (db +:+ ".dbtype"))]).
Proof.
  unfold has_dbtype. intros Ht. unfold check_db.
  cbv [bind path_is_file raise err ok]. by rewrite Ht.
Qed.

Lemma check_db_found dbbase db fr (w : W) :
  has_dbtype rt h dbbase w db = true ->
  exists t,
    check_db rt h dbbase db fr w
    = (inr (if lacks_index rt h dbbase w db then set_index_absent fr
            else set_index_present fr), w, t)
    /\ Forall is_query t.
Proof.
  unfold has_dbtype, lacks_index. intros Ht. unfold check_db.
  cbv [bind path_is_file log_info ret raise ok err]. rewrite Ht. cbn.
  destruct (is_file h (joinpath rt dbbase (db +:+ ".idx")) w) eqn:Hi; cbn.
  { eexists. split; [done|]. by repeat constructor. }
  destruct (is_file h (joinpath rt dbbase (db +:+ ".idx.index")) w) eqn:Hii; cbn;
    eexists; (split; [done|by repeat constructor]).
Qed.

Lemma check_db_quiet dbbase db fr (w : W) :
  snd (fst (check_db rt h dbbase db fr w)) = w
  /\ Forall is_query (snd (check_db rt h dbbase db fr w)).
Proof.
  destruct (has_dbtype rt h dbbase w db) eqn:Ht.
  - destruct (check_db_found dbbase db fr w Ht) as (t & -> & Hq). done.
  - rewrite (check_db_missing dbbase db fr w Ht). split; [done|]. by repeat constructor.
Qed.

Lemma check_db_ok_inv dbbase db fr (w w' : W) fr' t :
  check_db rt h dbbase db fr w = (inr fr', w', t) ->
  has_dbtype rt h dbbase w db = true.
Proof.
  destruct (has_dbtype rt h dbbase w db) eqn:Ht; [done|].
  by rewrite (check_db_missing dbbase db fr w Ht).
Qed.

Lemma for_fold_app {A S} (l1 l2 : list A) (body : A -> S -> @M W S) (s : S) w :
  for_fold (l1 ++ l2) body s w
  = (s' <- for_fold l1 body s ;; for_fold l2 body s') w.
Proof.
  revert s w. induction l1 as [|y l IH]; intros s w; cbn [for_fold app].
  - by rewrite bind_ret_l.
  - rewrite bind_assoc. apply bind_ext. intros s' w'. apply IH.
Qed.

(** The loop over databases that all have their [.dbtype] file. *)
Lemma loop_outcome dbbase (w : W) dbs : forall fr,
  forallb (has_dbtype rt h dbbase w) dbs = true ->
  exists fr' t,
    for_fold dbs (check_db rt h dbbase) fr w = (inr fr', w, t)
    /\ Forall is_query t
    /\ db_load_mode fr'
       = (if existsb (lacks_index rt h dbbase w) dbs then PyInt 0 else db_load_mode fr)
    /\ align_eval fr' = align_eval fr /\ qsc fr' = qsc fr
    /\ max_accept fr' = max_accept fr
    /\ dbSuffix1 fr'
       = match last dbs with
         | None => dbSuffix1 fr
         | Some d => Some (if lacks_index rt h dbbase w d then "_seq" else ".idx")
         end
    /\ dbSuffix2 fr'
       = match last dbs with
         | None => dbSuffix2 fr
         | Some d => Some (if lacks_index rt h dbbase w d then "_aln" else ".idx")
         end.
Proof.
  induction dbs as [|d dbs IH]; intros fr Hall.
  - exists fr, []. by split_and!.
  - cbn [forallb] in Hall. apply andb_true_iff in Hall as [Hd Hall].
    destruct (check_db_found dbbase d fr w Hd) as (t1 & Hrun & Hq1).
    destruct (IH (if lacks_index rt h dbbase w d then set_index_absent fr
                  else set_index_present fr) Hall)
      as (fr' & t2 & Hrest & Hq2 & Hmode & Hae & Hqsc & Hma & Hs1 & Hs2).
    exists fr', (t1 ++ t2). cbn [for_fold existsb].
    rewrite (bind_ok _ _ _ _ _ _ Hrun), Hrest.
    split; [done|]. split; [by apply Forall_app|].
    rewrite Hmode, Hae, Hqsc, Hma, Hs1, Hs2.
    destruct dbs as [|d' dbs].
    { cbn [last existsb]. destruct (lacks_index rt h dbbase w d); cbn; by split_and!. }
    assert (is_Some (last (d' :: dbs))) as [dl Hl] by (by apply last_is_Some).
    change (last (d :: d' :: dbs)) with (last (d' :: dbs)). rewrite Hl.
    cbn [existsb]. destruct (lacks_index rt h dbbase w d); cbn; split_and!; try done.
    by destruct (_ || _).
Qed.

Lemma for_fold_ok_inv dbbase dbs : forall fr (w w' : W) fr' t,
  for_fold dbs (check_db rt h dbbase) fr w = (inr fr', w', t) ->
  forallb (has_dbtype rt h dbbase w) dbs = true.
Proof.
  induction dbs as [|d dbs IH]; intros fr w w' fr' t; [done|].
  cbn [for_fold forallb].
  destruct (check_db rt h dbbase d fr w) as [[[e|fr1] w1] t1] eqn:Hd.
  { by rewrite (bind_err _ _ _ _ _ _ Hd). }
  rewrite (bind_ok _ _ _ _ _ _ Hd).
  pose proof (check_db_ok_inv _ _ _ _ _ _ _ Hd) as Ht.
  pose proof (check_db_quiet dbbase d fr w) as [Hw _]. rewrite Hd in Hw. simpl in Hw.
  subst w1.
  destruct (for_fold dbs (check_db rt h dbbase) fr1 w) as [[r w2] t2] eqn:Hrest.
  intros [= -> -> <-]. by rewrite Ht, (IH _ _ _ _ _ Hrest).
Qed.

Lemma used_dbs_cases a (w : W) :
  (exists name, used_dbs g a w = (inl (NameError name), w, []))
  \/ (exists vt ve,
        g !! "use_templates" = Some vt /\ g !! "use_env" = Some ve
        /\ used_dbs g a w
           = (inr (m_uniref_db a
                   :: (if py_truthy vt then [m_template_db a] else [])
                   ++ (if py_truthy ve then [m_metagenomic_db a] else [])), w, [])).
Proof.
  unfold used_dbs. cbv [bind load_global ret ok err].
  destruct (g !! "use_templates") as [vt|]; [|left; by eexists].
  destruct (g !! "use_env") as [ve|]; [|left; by eexists].
  right. exists vt, ve. by split_and!.
Qed.

(** X5: the pairing pipeline on a database without its [.dbtype] file ends
    with [FileNotFoundError] naming the database; it has only tested that
    one file: no process, no log line, no removal, the world untouched. *)
Theorem pair_missing_database (a : pair_args) (w : W) :
  is_file h (joinpath rt (p_dbbase a) (p_uniref_db a +:+ ".dbtype")) w = false ->
  mmseqs_search_pair rt h a w
  = (inl (FileNotFoundError ("Database " +:+ p_uniref_db a +:+ " does not exist")), w,
     [EvIsFile (joinpath rt (p_dbbase a) (p_uniref_db a +:+ ".dbtype"))]).
Proof.
  intros Ht. unfold mmseqs_search_pair.
  by rewrite (bind_err _ _ _ _ _ _ (check_db_missing _ _ _ _ Ht)).
Qed.

Lemma prelude_quiet a (w : W) :
  snd (fst (monomer_prelude rt h g a w)) = w
  /\ Forall is_query (snd (monomer_prelude rt h g a w)).
Proof.
  assert (forall dbs fr,
            snd (fst (for_fold dbs (check_db rt h (m_dbbase a)) fr w)) = w
            /\ Forall is_query (snd (for_fold dbs (check_db rt h (m_dbbase a)) fr w)))
    as Hloop.
  { induction dbs as [|d dbs IH]; intros fr; cbn [for_fold]; [by split|].
    pose proof (check_db_quiet (m_dbbase a) d fr w) as [Hw Hq].
    destruct (check_db rt h (m_dbbase a) d fr w) as [[[e|fr1] w1] t1] eqn:Hd;
      simpl in Hw, Hq; subst w1.
    - by rewrite (bind_err _ _ _ _ _ _ Hd).
    - rewrite (bind_ok _ _ _ _ _ _ Hd). specialize (IH fr1).
      destruct (for_fold dbs (check_db rt h (m_dbbase a)) fr1 w) as [[r w2] t2].
      simpl in *. split; [tauto|]. apply Forall_app. tauto. }
  unfold monomer_prelude.
  destruct (used_dbs_cases a w) as [[name Hu]|(vt & ve & _ & _ & Hu)].
  - by rewrite (bind_err _ _ _ _ _ _ Hu).
  - rewrite (bind_ok _ _ _ _ _ _ Hu).
    specialize (Hloop (m_uniref_db a
                       :: (if py_truthy vt then [m_template_db a] else [])
                       ++ (if py_truthy ve then [m_metagenomic_db a] else []))
                      (initial_frame a)).
    destruct (for_fold _ _ _ w) as [[r w2] t2]. done.
Qed.

(** X6: whatever the files, the toggles and the arguments, everything the
    monomer pipeline does before its first stage is to test files and to
    write log lines: it starts no process, removes and writes nothing, and
    hands on the world as it found it. *)
Theorem prelude_only_inspects (a : monomer_args) (w : W) :
  snd (fst (monomer_prelude rt h g a w)) = w
  /\ Forall is_query (snd (monomer_prelude rt h g a w))
  /\ spawned (snd (monomer_prelude rt h g a w)) = [].
Proof.
  destruct (prelude_quiet a w) as [Hw Hq]. split_and!; [done|done|].
  induction Hq as [|ev t Hev Hq IH]; [done|].
  unfold spawned in *. cbn [omap]. by destruct ev.
Qed.

(** X7: the databases in use are checked in the order reference, template,
    environmental; the first one without its [.dbtype] file ends the
    monomer pipeline with [FileNotFoundError] naming it, as the last thing
    the run did: before it only file tests and log lines, no process. *)
Theorem missing_database_stops_monomer (a : monomer_args) (w : W) vt ve pre db post :
  g !! "use_templates" = Some vt -> g !! "use_env" = Some ve ->
  [m_uniref_db a] ++ (if py_truthy vt then [m_template_db a] else [])
    ++ (if py_truthy ve then [m_metagenomic_db a] else []) = pre ++ db :: post ->
  forallb (has_dbtype rt h (m_dbbase a) w) pre = true ->
  has_dbtype rt h (m_dbbase a) w db = false ->
  exists t,
    mmseqs_search_monomer rt h g a w
    = (inl (FileNotFoundError ("Database " +:+ db +:+ " does not exist")), w, t)
    /\ Forall is_query t
    /\ last t = Some (EvIsFile (joinpath rt (m_dbbase a) (db +:+ ".dbtype"))).
Proof.
  intros Hvt Hve Hdbs Hpre Hdb.
  destruct (used_dbs_cases a w) as [[name Hu]|(vt' & ve' & Hvt' & Hve' & Hu)].
  { exfalso. revert Hu. unfold used_dbs. cbv [bind load_global ret ok err].
    by rewrite Hvt, Hve. }
  assert (vt' = vt) as -> by congruence. assert (ve' = ve) as -> by congruence.
  cbn [app] in Hdbs. rewrite Hdbs in Hu.
  destruct (loop_outcome (m_dbbase a) w pre (initial_frame a) Hpre)
    as (fr1 & t1 & Hrun1 & Hq1 & _).
  assert (monomer_prelude rt h g a w
          = (inl (FileNotFoundError ("Database " +:+ db +:+ " does not exist")), w,
             t1 ++ [EvIsFile (joinpath rt (m_dbbase a) (db +:+ ".dbtype"))])) as Hprel.
  { unfold monomer_prelude. rewrite (bind_ok _ _ _ _ _ _ Hu), for_fold_app.
    rewrite (bind_ok _ _ _ _ _ _ Hrun1). cbn [for_fold].
    by rewrite (bind_err _ _ _ _ _ _ (check_db_missing _ _ _ _ Hdb)). }
  eexists. unfold mmseqs_search_monomer. rewrite (bind_err _ _ _ _ _ _ Hprel).
  split_and!; [done| |by rewrite last_snoc].
  apply Forall_app. split; [done|by repeat constructor].
Qed.

(** X8: when every database of the list has its [.dbtype] file the loop
    over them returns; [db_load_mode] comes out as 0 if at least one of the
    databases has neither index file and as it went in otherwise, the two
    suffixes are those of the last database of the list alone, and
    [align_eval], [qsc] and [max_accept] are not touched. *)
Theorem database_loop_outcome dbbase (w : W) (dbs : list path) (fr : frame) :
  forallb (has_dbtype rt h dbbase w) dbs = true ->
  exists fr' t,
    for_fold dbs (check_db rt h dbbase) fr w = (inr fr', w, t)
    /\ db_load_mode fr'
       = (if existsb (lacks_index rt h dbbase w) dbs then PyInt 0 else db_load_mode fr)
    /\ align_eval fr' = align_eval fr /\ qsc fr' = qsc fr
    /\ max_accept fr' = max_accept fr
    /\ dbSuffix1 fr'
       = match last dbs with
         | None => dbSuffix1 fr
         | Some d => Some (if lacks_index rt h dbbase w d then "_seq" else ".idx")
         end
    /\ dbSuffix2 fr'
       = match last dbs with
         | None => dbSuffix2 fr
         | Some d => Some (if lacks_index rt h dbbase w d then "_aln" else ".idx")
         end.
Proof.
  intros Hall. destruct (loop_outcome dbbase w dbs fr Hall) as (fr' & t & Hrun & _ & Hrest).
  by exists fr', t.
Qed.

Lemma prelude_ok_suffixes a (w w' : W) fr t :
  monomer_prelude rt h g a w = (inr fr, w', t) ->
  exists s1 s2,
    dbSuffix1 fr = Some s1 /\ dbSuffix2 fr = Some s2
    /\ ((s1 = "_seq" /\ s2 = "_aln" /\ db_load_mode fr = PyInt 0)
        \/ (s1 = ".idx" /\ s2 = ".idx")).
Proof.
  intros Hprel. unfold monomer_prelude in Hprel.
  destruct (used_dbs_cases a w) as [[name Hu]|(vt & ve & _ & _ & Hu)].
  { by rewrite (bind_err _ _ _ _ _ _ Hu) in Hprel. }
  rewrite (bind_ok _ _ _ _ _ _ Hu) in Hprel.
  set (dbs := m_uniref_db a :: _) in *.
  destruct (for_fold dbs (check_db rt h (m_dbbase a)) (initial_frame a) w)
    as [[r w2] t2] eqn:Hloop.
  injection Hprel as -> -> <-.
  pose proof (for_fold_ok_inv _ _ _ _ _ _ _ Hloop) as Hall.
  destruct (loop_outcome (m_dbbase a) w dbs (initial_frame a) Hall)
    as (fr' & t' & Hrun & _ & Hmode & _ & _ & _ & Hs1 & Hs2).
  rewrite Hloop in Hrun. injection Hrun as <- _.
  destruct (last dbs) as [d|] eqn:Hlast.
  2:{ apply last_None in Hlast. done. }
  rewrite Hs1, Hs2.
  destruct (lacks_index rt h (m_dbbase a) w d) eqn:Hd; eexists _, _;
    (split; [done|]); (split; [done|]); [left|right]; split_and!; try done.
  rewrite Hmode.
  assert (existsb (lacks_index rt h (m_dbbase a) w) dbs = true) as ->; [|done].
  apply existsb_exists. exists d. split; [|done].
  apply list_elem_of_In, last_Some_elem_of. done.
Qed.

(** X9: when the stages of the monomer pipeline are reached both suffix
    variables are bound, to [_seq] and [_aln] (and then [db_load_mode] is
    0) or both to [.idx]: reading them cannot fail, and the stages are the
    fourteen invocations of the list, in order. *)
Theorem stages_find_suffixes_bound (a : monomer_args) (w w' : W) fr t :
  monomer_prelude rt h g a w = (inr fr, w', t) ->
  exists s1 s2,
    dbSuffix1 fr = Some s1 /\ dbSuffix2 fr = Some s2
    /\ ((s1 = "_seq" /\ s2 = "_aln" /\ db_load_mode fr = PyInt 0)
        \/ (s1 = ".idx" /\ s2 = ".idx"))
    /\ forall w0,
         monomer_stages rt h a fr w0
         = run_steps h (m_mmseqs a) (monomer_calls rt a fr s1 s2) w0.
Proof.
  intros Hprel.
  destruct (prelude_ok_suffixes a w w' fr t Hprel) as (s1 & s2 & H1 & H2 & Hcases).
  exists s1, s2. split_and!; try done.
  intros w0. by apply monomer_stages_calls.
Qed.

End Databases.

(** ** Whole runs *)

Section Outcomes.

Context (rt : runtime) {W : Type} (h : handler W) (g : namespace).

Notation "x <- m ;; k" := (bind m (fun x => k))
  (at level 100, m at next level, right associativity).
Notation "m ;; k" := (bind m (fun _ => k))
  (at level 100, right associativity).

Lemma spawned_queries (t : list event) : Forall is_query t -> spawned t = [].
Proof.
  induction 1 as [|ev t Hev Hq IH]; [done|].
  unfold spawned in *. cbn [omap]. by destruct ev.
Qed.

Lemma spawned_app (t1 t2 : list event) : spawned (t1 ++ t2) = spawned t1 ++ spawned t2.
Proof. apply omap_app. Qed.

Lemma bind_ext_l {A B} (m m' : @M W A) (k : A -> @M W B) w :
  (forall w', m w' = m' w') -> bind m k w = bind m' k w.
Proof. intros Hm. unfold bind. by rewrite Hm. Qed.

Lemma run_steps_seq mmseqs (l1 l2 : list step) {B} (k : unit -> @M W B) (w : W) :
  (run_steps h mmseqs l1 ;; run_steps h mmseqs l2 ;; k tt) w
  = (run_steps h mmseqs (l1 ++ l2) ;; k tt) w.
Proof.
  unfold run_steps. revert w. induction l1 as [|c l1 IH]; intros w; cbn [for_each app].
  - by rewrite bind_ret_l.
  - rewrite !bind_assoc. apply bind_ext. intros _ w'. apply IH.
Qed.

(** When every process ends with status 0, a list of invocations runs to
    its end and starts its command lines in order. *)
Lemma run_steps_all_zero mmseqs :
  (forall argv w', fst (spawn h argv w') = inr 0) ->
  forall cs (w : W), exists w' t,
    run_steps h mmseqs cs w = (inr tt, w', t)
    /\ spawned t = command_lines mmseqs cs.
Proof.
  intros Hzero. induction cs as [|c cs IH]; intros w.
  - by exists w, [].
  - assert (exists w1 t1, run_step h mmseqs c w = (inr tt, w1, t1)
                          /\ spawned t1 = [mmseqs :: step_params c])
      as (w1 & t1 & Hc & Ht1).
    { pose proof (Hzero (mmseqs :: step_params c) w) as Hsp.
      destruct (spawn h (mmseqs :: step_params c) w) as [r w1] eqn:Hspawn.
      simpl in Hsp. subst r. destruct c as [params|params]; eexists _, _.
      - split; [by apply run_mmseqs_zero|done].
      - split; [by eapply run_step_unchecked|done]. }
    destruct (IH w1) as (w2 & t2 & Hcs & Ht2).
    exists w2, (t1 ++ t2). unfold run_steps in *. cbn [for_each].
    rewrite (bind_ok _ _ _ _ _ _ Hc), Hcs. split; [done|].
    rewrite spawned_app, Ht1, Ht2. done.
Qed.

(** The pairing pipeline after a successful database check. *)
Lemma pair_pipeline_invocations a (w : W) :
  has_dbtype rt h (p_dbbase a) w (p_uniref_db a) = true ->
  exists t0,
    Forall is_query t0
    /\ mmseqs_search_pair rt h a w
       = (let '(r, w', t) :=
            (run_steps h (p_mmseqs a) (pair_invocations rt h a w) ;;
             shutil_rmtree h (joinpath rt (p_base a) "tmp")) w in
          (r, w', t0 ++ t)).
Proof.
  intros Hdb.
  destruct (check_db_found rt h (p_dbbase a) (p_uniref_db a) (pair_initial_frame a) w Hdb)
    as (t0 & Hrun & Hq).
  exists t0. split; [done|]. unfold mmseqs_search_pair.
  rewrite (bind_ok _ _ _ _ _ _ Hrun). fold (pair_frame rt h a w).
  assert (dbSuffix1 (pair_frame rt h a w) = Some (pair_suffix rt h a w)) as Hs.
  { unfold pair_frame, pair_suffix.
    by destruct (lacks_index rt h (p_dbbase a) w (p_uniref_db a)). }
  assert ((pair_stages rt h a (pair_frame rt h a w) ;; pair_cleanup rt h a) w
          = (run_steps h (p_mmseqs a) (pair_invocations rt h a w) ;;
             shutil_rmtree h (joinpath rt (p_base a) "tmp")) w) as ->; [|done].
  unfold pair_invocations.
  rewrite <- (run_steps_seq _ _ _ (fun _ => shutil_rmtree h (joinpath rt (p_base a) "tmp"))).
  rewrite (bind_ext_l _ _ _ _ (fun w' => pair_stages_calls rt h a _ _ w' Hs)).
  apply bind_ext. intros _ w'. apply pair_cleanup_calls_run.
Qed.

(** X10: in the pairing pipeline every one of the fourteen invocations,
    the five stages and the nine removals alike, is fatal: the first that
    ends with a non-zero status ends the run with [CalledProcessError]
    carrying that status and command, nothing after it is started, and the
    temporary directory is not removed. *)
Theorem pair_failure_is_fatal (a : pair_args) (w w1 w2 : W) pre c post t1 rc :
  has_dbtype rt h (p_dbbase a) w (p_uniref_db a) = true ->
  pair_invocations rt h a w = pre ++ Checked c :: post ->
  run_steps h (p_mmseqs a) pre w = (inr tt, w1, t1) ->
  spawn h (p_mmseqs a :: c) w1 = (inr rc, w2) -> rc <> 0 ->
  exists t0,
    Forall is_query t0
    /\ mmseqs_search_pair rt h a w
       = (inl (CalledProcessError rc (p_mmseqs a :: c)), w2,
          t0 ++ t1 ++ [EvInfo (running_msg (p_mmseqs a) c); EvSpawn (p_mmseqs a :: c)]).
Proof.
  intros Hdb Hcalls Hpre Hsp Hrc.
  destruct (pair_pipeline_invocations a w Hdb) as (t0 & Hq & ->).
  exists t0. split; [done|]. rewrite Hcalls.
  by rewrite (bind_err _ _ _ _ _ _ (run_steps_abort h _ _ _ post _ _ _ _ _ Hpre Hsp Hrc)).
Qed.

(** X11: when the database is there, every process ends with status 0 and
    the temporary directory can be removed, the pairing pipeline returns
    normally; the processes it started are exactly its fourteen command
    lines, once each and in order, and the last thing it did is the
    removal of [tmp]. *)
Theorem pair_success_runs_every_invocation (a : pair_args) (w : W) :
  has_dbtype rt h (p_dbbase a) w (p_uniref_db a) = true ->
  (forall argv w', fst (spawn h argv w') = inr 0) ->
  (forall w', fst (rmtree h (joinpath rt (p_base a) "tmp") w') = None) ->
  fst (fst (mmseqs_search_pair rt h a w)) = inr tt
  /\ spawned (snd (mmseqs_search_pair rt h a w))
     = command_lines (p_mmseqs a) (pair_invocations rt h a w)
  /\ length (spawned (snd (mmseqs_search_pair rt h a w))) = 14%nat
  /\ last (snd (mmseqs_search_pair rt h a w))
     = Some (EvRmtree (joinpath rt (p_base a) "tmp")).
Proof.
  intros Hdb Hzero Hrm.
  destruct (pair_pipeline_invocations a w Hdb) as (t0 & Hq & ->).
  destruct (run_steps_all_zero (p_mmseqs a) Hzero (pair_invocations rt h a w) w)
    as (w1 & t1 & Hrun & Ht1).
  rewrite (bind_ok _ _ _ _ _ _ Hrun).
  unfold shutil_rmtree, lift_file_op. specialize (Hrm w1).
  destruct (rmtree h (joinpath rt (p_base a) "tmp") w1) as [[e|] w2]; [done|].
  cbn [fst snd]. split_and!; [done| | |].
  - by rewrite !spawned_app, (spawned_queries _ Hq), Ht1, app_nil_r.
  - by rewrite !spawned_app, (spawned_queries _ Hq), Ht1, app_nil_r.
  - by rewrite !app_assoc, last_snoc.
Qed.

Lemma teardown_spawns_nothing a (w : W) :
  spawned (snd (monomer_teardown rt h g a w)) = [].
Proof.
  destruct (teardown_starts_no_process rt h g a (fun _ => False) w) as [Hsp _].
  destruct (spawned _) as [|argv l]; [done|]. by apply Forall_cons in Hsp as [[] _].
Qed.

(** X12: when the prelude has succeeded and every process ends with status
    0, the monomer pipeline starts exactly its fourteen command lines, once
    each and in order ([rmdb] of [res] twice: as the ninth and as the last
    one), and then reaches its teardown, which starts no process, whether
    or not the teardown itself succeeds. *)
Theorem monomer_success_runs_every_invocation (a : monomer_args) (w w0 : W) fr t0 :
  monomer_prelude rt h g a w = (inr fr, w0, t0) ->
  (forall argv w', fst (spawn h argv w') = inr 0) ->
  exists s1 s2,
    dbSuffix1 fr = Some s1 /\ dbSuffix2 fr = Some s2
    /\ spawned (snd (mmseqs_search_monomer rt h g a w)) = monomer_commands rt a fr s1 s2
    /\ monomer_commands rt a fr s1 s2 !! 8%nat
       = Some (m_mmseqs a :: rmdb_params rt (m_base a) "res")
    /\ last (monomer_commands rt a fr s1 s2)
       = Some (m_mmseqs a :: rmdb_params rt (m_base a) "res")
    /\ EvGlob (m_base a) "prof_res*" ∈ snd (mmseqs_search_monomer rt h g a w).
Proof.
  intros Hprel Hzero.
  destruct (prelude_ok_suffixes rt h g a w w0 fr t0 Hprel) as (s1 & s2 & H1 & H2 & _).
  exists s1, s2. split_and!; [done|done| | done|done|].
  - unfold mmseqs_search_monomer. rewrite (bind_ok _ _ _ _ _ _ Hprel).
    destruct (run_steps_all_zero (m_mmseqs a) Hzero (monomer_calls rt a fr s1 s2) w0)
      as (w1 & t1 & Hrun & Ht1).
    rewrite <- (monomer_stages_calls rt h a fr s1 s2 w0 H1 H2) in Hrun.
    rewrite (bind_ok _ _ _ _ _ _ Hrun).
    pose proof (teardown_spawns_nothing a w1) as Htd.
    destruct (monomer_teardown rt h g a w1) as [[r w2] t2]. cbn [snd] in *.
    pose proof (prelude_quiet rt h g a w) as [_ Hq]. rewrite Hprel in Hq. cbn [snd] in Hq.
    by rewrite !spawned_app, (spawned_queries _ Hq), Ht1, Htd, app_nil_r.
  - unfold mmseqs_search_monomer. rewrite (bind_ok _ _ _ _ _ _ Hprel).
    destruct (run_steps_all_zero (m_mmseqs a) Hzero (monomer_calls rt a fr s1 s2) w0)
      as (w1 & t1 & Hrun & Ht1).
    rewrite <- (monomer_stages_calls rt h a fr s1 s2 w0 H1 H2) in Hrun.
    rewrite (bind_ok _ _ _ _ _ _ Hrun).
    unfold monomer_teardown.
    rewrite (bind_ok _ _ _ _ _ _
               (eq_refl : path_glob h (m_base a) "prof_res*" w1
                          = (inr (glob h (m_base a) "prof_res*" w1), w1,
                             [EvGlob (m_base a) "prof_res*"]))).
    destruct (bind _ _ w1) as [[r w2] t2].
    cbn [snd]. rewrite !elem_of_app. right. right. left. apply list_elem_of_singleton. done.
Qed.

End Outcomes.

(** ** Teardown and [main] *)

Section Endings.

Context (rt : runtime) {W : Type} (h : handler W) (g : namespace).

Notation "x <- m ;; k" := (bind m (fun x => k))
  (at level 100, m at next level, right associativity).
Notation "m ;; k" := (bind m (fun _ => k))
  (at level 100, right associativity).

Lemma for_each_unlink_ok :
  (forall p w', fst (unlink h p w') = None) ->
  forall files (w : W), exists w',
    for_each files (path_unlink h) w = (inr tt, w', map EvUnlink files).
Proof.
  intros Hun. induction files as [|f files IH]; intros w; [by exists w|].
  cbn [for_each map].
  assert (exists w1, path_unlink h f w = (inr tt, w1, [EvUnlink f])) as [w1 Hf].
  { unfold path_unlink, lift_file_op. specialize (Hun f w).
    destruct (unlink h f w) as [[e|] w1]; [done|]. by exists w1. }
  destruct (IH w1) as [w2 Hrest]. exists w2.
  by rewrite (bind_ok _ _ _ _ _ _ Hf), Hrest.
Qed.

Lemma rmtree_ok (p : path) (w : W) :
  (forall p w', fst (rmtree h p w') = None) ->
  exists w', shutil_rmtree h p w = (inr tt, w', [EvRmtree p]).
Proof.
  intros Hrm. unfold shutil_rmtree, lift_file_op. specialize (Hrm p w).
  destruct (rmtree h p w) as [[e|] w1]; [done|]. by exists w1.
Qed.

(** X13: when the removals succeed, the teardown of the monomer pipeline
    lists the [prof_res*] files once, unlinks them in the order listed,
    removes [tmp], then [tmp2] exactly when [use_templates] is true and
    [tmp3] exactly when [use_env] is true, and does nothing else. *)
Theorem teardown_order (a : monomer_args) (w : W) vt ve :
  g !! "use_templates" = Some vt -> g !! "use_env" = Some ve ->
  (forall p w', fst (unlink h p w') = None) ->
  (forall p w', fst (rmtree h p w') = None) ->
  exists w',
    monomer_teardown rt h g a w
    = (inr tt, w',
       EvGlob (m_base a) "prof_res*"
       :: map EvUnlink (glob h (m_base a) "prof_res*" w)
       ++ [EvRmtree (joinpath rt (m_base a) "tmp")]
       ++ (if py_truthy vt then [EvRmtree (joinpath rt (m_base a) "tmp2")] else [])
       ++ (if py_truthy ve then [EvRmtree (joinpath rt (m_base a) "tmp3")] else [])).
Proof.
  intros Hvt Hve Hun Hrm. unfold monomer_teardown.
  rewrite (bind_ok _ _ _ _ _ _
             (eq_refl : path_glob h (m_base a) "prof_res*" w
                        = (inr (glob h (m_base a) "prof_res*" w), w,
                           [EvGlob (m_base a) "prof_res*"]))).
  destruct (for_each_unlink_ok Hun (glob h (m_base a) "prof_res*" w) w) as [w1 Hfiles].
  rewrite (bind_ok _ _ _ _ _ _ Hfiles).
  destruct (rmtree_ok (joinpath rt (m_base a) "tmp") w1 Hrm) as [w2 Htmp].
  rewrite (bind_ok _ _ _ _ _ _ Htmp).
  assert (forall w', load_global (W:=W) g "use_templates" w' = (inr vt, w', [])) as Hlt.
  { intros w'. unfold load_global. by rewrite Hvt. }
  assert (forall w', load_global (W:=W) g "use_env" w' = (inr ve, w', [])) as Hle.
  { intros w'. unfold load_global. by rewrite Hve. }
  rewrite (bind_ok _ _ _ _ _ _ (Hlt w2)).
  assert (exists w3,
            (if py_truthy vt then shutil_rmtree h (joinpath rt (m_base a) "tmp2")
             else ret tt) w2
            = (inr tt, w3,
               if py_truthy vt then [EvRmtree (joinpath rt (m_base a) "tmp2")] else []))
    as [w3 Htmp2].
  { destruct (py_truthy vt); [by apply rmtree_ok|by exists w2]. }
  rewrite (bind_ok _ _ _ _ _ _ Htmp2), (bind_ok _ _ _ _ _ _ (Hle w3)).
  assert (exists w4,
            (if py_truthy ve then shutil_rmtree h (joinpath rt (m_base a) "tmp3")
             else ret tt) w3
            = (inr tt, w4,
               if py_truthy ve then [EvRmtree (joinpath rt (m_base a) "tmp3")] else []))
    as [w4 Htmp3].
  { destruct (py_truthy ve); [by apply rmtree_ok|by exists w3]. }
  rewrite Htmp3. by exists w4.
Qed.

(** X14: [main] does not guard the pipeline: when the directory, the two
    files and the query database have been made and the call of
    [mmseqs_search_monomer] then raises, [main] ends with that exception
    where the pipeline stopped; [query.fas] is not unlinked and the two
    removals of [qdb] and [qdb_h] are not started. *)
Theorem main_pipeline_failure (args : cli_args) (queries : list query) (js : list job)
    (w w1 w2 w3 w4 w5 : W) e t :
  normalize_queries queries = ok js ->
  mkdir h (c_base args) w = (None, w1) ->
  write_text h (joinpath rt (c_base args) "query.fas") (query_fasta_text js) w1
    = (None, w2) ->
  spawn h (c_mmseqs args :: createdb_params rt args) w2 = (inr 0, w3) ->
  write_text h (joinpath rt (c_base args) "qdb.lookup") (lookup_text js) w3 = (None, w4) ->
  mmseqs_search_monomer rt h g (pipeline_args args) w4 = (inl e, w5, t) ->
  main rt h g args queries w
  = (inl e, w5,
     [ EvMkdir (c_base args);
       EvWrite (joinpath rt (c_base args) "query.fas") (query_fasta_text js);
       EvInfo (running_msg (c_mmseqs args) (createdb_params rt args));
       EvSpawn (c_mmseqs args :: createdb_params rt args);
       EvWrite (joinpath rt (c_base args) "qdb.lookup") (lookup_text js) ] ++ t).
Proof.
  intros Hjs Hmk Hq Hdb Hl Hpipe. unfold main. rewrite Hjs.
  unfold ok. lazy beta iota zeta.
  unfold pipeline_args in Hpipe. unfold createdb_params in *.
  assert (path_mkdir h (c_base args) w = (inr tt, w1, [EvMkdir (c_base args)])) as H1.
  { unfold path_mkdir, lift_file_op. by rewrite Hmk. }
  rewrite (bind_ok _ _ _ _ _ _ H1).
  assert (path_write h (joinpath rt (c_base args) "query.fas") (query_fasta_text js) w1
          = (inr tt, w2,
             [EvWrite (joinpath rt (c_base args) "query.fas") (query_fasta_text js)]))
    as H2.
  { unfold path_write, lift_file_op. by rewrite Hq. }
  rewrite (bind_ok _ _ _ _ _ _ H2).
  rewrite (bind_ok _ _ _ _ _ _ (run_mmseqs_zero h _ _ _ _ Hdb)).
  assert (path_write h (joinpath rt (c_base args) "qdb.lookup") (lookup_text js) w3
          = (inr tt, w4,
             [EvWrite (joinpath rt (c_base args) "qdb.lookup") (lookup_text js)]))
    as H4.
  { unfold path_write, lift_file_op. by rewrite Hl. }
  rewrite (bind_ok _ _ _ _ _ _ H4).
  by rewrite (bind_err _ _ _ _ _ _ Hpipe).
Qed.

End Endings.

Section AsWritten.

Context (rt : runtime) {W : Type} (h : handler W).

(** X15: with the module as it is written, [main] never returns normally,
    whatever the arguments, the queries and the world: it ends with an
    exception, at the latest the [NameError] of the pipeline; the only
    process it can have started is [createdb], and it has removed
    nothing: the files it wrote stay behind. *)
Theorem main_never_completes (args : cli_args) (queries : list query) (w : W) :
  exists e w' t,
    main rt h module_globals args queries w = (inl e, w', t)
    /\ (spawned t = [] \/ spawned t = [c_mmseqs args :: createdb_params rt args])
    /\ Forall (fun ev => ~ is_removal ev) t.
Proof.
  destruct (normalize_queries_total queries) as (js & Hjs & _).
  assert (forall a (w' : W), exists name,
            mmseqs_search_monomer rt h module_globals a w' = (inl (NameError name), w', []))
    as Hpipe.
  { intros a w'.
    destruct (unbound_toggle_raises rt h module_globals a w') as (name & _ & Hrun);
      [by left|by exists name]. }
  unfold main. rewrite Hjs. unfold ok. lazy beta iota zeta.
  cbv [bind path_mkdir path_write lift_file_op run_mmseqs subprocess_check_call
       subprocess_run log_info ret raise ok err].
  destruct (mkdir h (c_base args) w) as [[e|] w1].
  { eexists _, _, _. split; [done|]. split; [by left|].
    repeat first [apply List.Forall_nil | apply List.Forall_cons; [simpl; tauto|]]. }
  destruct (write_text h _ _ w1) as [[e|] w2].
  { eexists _, _, _. split; [done|]. split; [by left|].
    repeat first [apply List.Forall_nil | apply List.Forall_cons; [simpl; tauto|]]. }
  destruct (spawn h _ w2) as [[e|rc] w3].
  { eexists _, _, _. split; [done|]. split; [by right|].
    repeat first [apply List.Forall_nil | apply List.Forall_cons; [simpl; tauto|]]. }
  destruct (rc =? 0).
  2:{ eexists _, _, _. split; [done|]. split; [by right|].
      repeat first [apply List.Forall_nil | apply List.Forall_cons; [simpl; tauto|]]. }
  destruct (write_text h _ _ w3) as [[e|] w4].
  { eexists _, _, _. split; [done|]. split; [by right|].
    repeat first [apply List.Forall_nil | apply List.Forall_cons; [simpl; tauto|]]. }
  match goal with |- context [mmseqs_search_monomer rt h module_globals ?a w4] =>
    destruct (Hpipe a w4) as [name ->] end.
  eexists _, _, _. split; [done|]. split; [by right|].
  repeat first [apply List.Forall_nil | apply List.Forall_cons; [simpl; tauto|]].
Qed.

End AsWritten.

(** ** The properties above on the example worlds *)

(** No file of the reference database exists. *)
Lemma pair_missing_database_witness :
  mmseqs_search_pair example_runtime no_database example_pair_args 0%nat
  = (inl (FileNotFoundError "Database uniref30_2302_db does not exist"), 0%nat,
     [EvIsFile "/db/uniref30_2302_db.dbtype"]).
Proof.
  apply (pair_missing_database example_runtime no_database example_pair_args 0%nat).
  vm_compute. reflexivity.
Defined.

(** The environmental database is in use and has no [.dbtype] file. *)
Lemma missing_database_stops_monomer_witness :
  exists t,
    mmseqs_search_monomer example_runtime env_db_missing (with_toggles false true)
      example_monomer_args 0%nat
    = (inl (FileNotFoundError "Database colabfold_envdb_202108_db does not exist"),
       0%nat, t)
    /\ Forall is_query t
    /\ last t = Some (EvIsFile "/db/colabfold_envdb_202108_db.dbtype").
Proof.
  apply (missing_database_stops_monomer example_runtime env_db_missing
           (with_toggles false true) example_monomer_args 0%nat (PyBool false) (PyBool true)
           ["uniref30_2302_db"] "colabfold_envdb_202108_db" []);
    vm_compute; reflexivity.
Defined.

(** The reference database without index, then the environmental database
    with its [.idx]. *)
Lemma database_loop_outcome_witness :
  exists fr' t,
    for_fold ["uniref30_2302_db"; "colabfold_envdb_202108_db"]
      (check_db example_runtime mixed_indexes "/db") (initial_frame example_monomer_args)
      0%nat
    = (inr fr', 0%nat, t)
    /\ db_load_mode fr' = PyInt 0
    /\ align_eval fr' = PyInt 10 /\ qsc fr' = PyFloat 0.8
    /\ max_accept fr' = PyInt 100000
    /\ dbSuffix1 fr' = Some ".idx"
    /\ dbSuffix2 fr' = Some ".idx".
Proof.
  apply (database_loop_outcome example_runtime mixed_indexes "/db" 0%nat
           ["uniref30_2302_db"; "colabfold_envdb_202108_db"]
           (initial_frame example_monomer_args)).
  vm_compute. reflexivity.
Defined.

(** The reference database alone, without index. *)
Lemma stages_find_suffixes_bound_witness :
  exists s1 s2,
    dbSuffix1 (set_index_absent (initial_frame example_monomer_args)) = Some s1
    /\ dbSuffix2 (set_index_absent (initial_frame example_monomer_args)) = Some s2
    /\ ((s1 = "_seq" /\ s2 = "_aln"
         /\ db_load_mode (set_index_absent (initial_frame example_monomer_args)) = PyInt 0)
        \/ (s1 = ".idx" /\ s2 = ".idx"))
    /\ forall w0,
         monomer_stages example_runtime all_succeed example_monomer_args
           (set_index_absent (initial_frame example_monomer_args)) w0
         = run_steps all_succeed "mmseqs"
             (monomer_calls example_runtime example_monomer_args
                (set_index_absent (initial_frame example_monomer_args)) s1 s2) w0.
Proof.
  apply (stages_find_suffixes_bound example_runtime all_succeed (with_toggles false false)
           example_monomer_args 0%nat 0%nat
           (set_index_absent (initial_frame example_monomer_args))
           (snd (monomer_prelude example_runtime all_succeed (with_toggles false false)
                   example_monomer_args 0%nat))).
  vm_compute. reflexivity.
Defined.

(** The eighth process, the removal of [res], ends with status 1. *)
Lemma pair_failure_is_fatal_witness :
  exists t0,
    Forall is_query t0
    /\ mmseqs_search_pair example_runtime rmdb_res_fails example_pair_args 0%nat
       = (inl (CalledProcessError 1 ["mmseqs"; "rmdb"; "/out/res"]), 8%nat,
          t0 ++ snd (run_steps rmdb_res_fails "mmseqs"
                       (take 7 (pair_invocations example_runtime rmdb_res_fails
                                  example_pair_args 0%nat)) 0%nat)
             ++ [EvInfo (running_msg "mmseqs" ["rmdb"; "/out/res"]);
                 EvSpawn ["mmseqs"; "rmdb"; "/out/res"]]).
Proof.
  apply (pair_failure_is_fatal example_runtime rmdb_res_fails example_pair_args
           0%nat 7%nat 8%nat
           (take 7 (pair_invocations example_runtime rmdb_res_fails example_pair_args 0%nat))
           ["rmdb"; "/out/res"]
           (drop 8 (pair_invocations example_runtime rmdb_res_fails example_pair_args 0%nat))
           (snd (run_steps rmdb_res_fails "mmseqs"
                   (take 7 (pair_invocations example_runtime rmdb_res_fails
                              example_pair_args 0%nat)) 0%nat))
           1);
    [vm_compute; reflexivity|vm_compute; reflexivity|vm_compute; reflexivity
    |reflexivity|lia].
Defined.

(** Every process ends with status 0. *)
Lemma pair_success_runs_every_invocation_witness :
  fst (fst (mmseqs_search_pair example_runtime all_succeed example_pair_args 0%nat)) = inr tt
  /\ spawned (snd (mmseqs_search_pair example_runtime all_succeed example_pair_args 0%nat))
     = command_lines "mmseqs"
         (pair_invocations example_runtime all_succeed example_pair_args 0%nat)
  /\ length (spawned (snd (mmseqs_search_pair example_runtime all_succeed
                             example_pair_args 0%nat))) = 14%nat
  /\ last (snd (mmseqs_search_pair example_runtime all_succeed example_pair_args 0%nat))
     = Some (EvRmtree "/out/tmp").
Proof.
  apply (pair_success_runs_every_invocation example_runtime all_succeed
           example_pair_args 0%nat).
  - vm_compute. reflexivity.
  - intros argv n. simpl. destruct n; reflexivity.
  - intros n. reflexivity.
Defined.

(** Every process ends with status 0; only the reference database is in
    use. *)
Lemma monomer_success_runs_every_invocation_witness :
  exists s1 s2,
    dbSuffix1 (set_index_absent (initial_frame example_monomer_args)) = Some s1
    /\ dbSuffix2 (set_index_absent (initial_frame example_monomer_args)) = Some s2
    /\ spawned (snd (mmseqs_search_monomer example_runtime all_succeed
                       (with_toggles false false) example_monomer_args 0%nat))
       = monomer_commands example_runtime example_monomer_args
           (set_index_absent (initial_frame example_monomer_args)) s1 s2
    /\ monomer_commands example_runtime example_monomer_args
         (set_index_absent (initial_frame example_monomer_args)) s1 s2 !! 8%nat
       = Some ["mmseqs"; "rmdb"; "/out/res"]
    /\ last (monomer_commands example_runtime example_monomer_args
               (set_index_absent (initial_frame example_monomer_args)) s1 s2)
       = Some ["mmseqs"; "rmdb"; "/out/res"]
    /\ EvGlob "/out" "prof_res*"
       ∈ snd (mmseqs_search_monomer example_runtime all_succeed
                (with_toggles false false) example_monomer_args 0%nat).
Proof.
  apply (monomer_success_runs_every_invocation example_runtime all_succeed
           (with_toggles false false) example_monomer_args 0%nat 0%nat
           (set_index_absent (initial_frame example_monomer_args))
           (snd (monomer_prelude example_runtime all_succeed (with_toggles false false)
                   example_monomer_args 0%nat))).
  - vm_compute. reflexivity.
  - intros argv n. simpl. destruct n; reflexivity.
Defined.

(** Two scratch files; the environmental database is in use, templates are
    not. *)
Lemma teardown_order_witness :
  exists w',
    monomer_teardown example_runtime two_scratch_files (with_toggles false true)
      example_monomer_args 14%nat
    = (inr tt, w',
       [EvGlob "/out" "prof_res*"; EvUnlink "/out/prof_res"; EvUnlink "/out/prof_res_h";
        EvRmtree "/out/tmp"; EvRmtree "/out/tmp3"]).
Proof.
  apply (teardown_order example_runtime two_scratch_files (with_toggles false true)
           example_monomer_args 14%nat (PyBool false) (PyBool true)).
  - vm_compute. reflexivity.
  - vm_compute. reflexivity.
  - intros p n. reflexivity.
  - intros p n. reflexivity.
Defined.

(** The pipeline stops at the environmental database, which is missing. *)
Lemma main_pipeline_failure_witness :
  main example_runtime env_db_missing (with_toggles false true) example_cli_args
    example_queries 0%nat
  = (inl (FileNotFoundError "Database colabfold_envdb_202108_db does not exist"), 1%nat,
     [ EvMkdir "/out";
       EvWrite "/out/query.fas" (query_fasta_text example_jobs);
       EvInfo (running_msg "mmseqs" (createdb_params example_runtime example_cli_args));
       EvSpawn ("mmseqs" :: createdb_params example_runtime example_cli_args);
       EvWrite "/out/qdb.lookup" (lookup_text example_jobs) ]
     ++ snd (mmseqs_search_monomer example_runtime env_db_missing (with_toggles false true)
               (pipeline_args example_cli_args) 1%nat)).
Proof.
  apply (main_pipeline_failure example_runtime env_db_missing (with_toggles false true)
           example_cli_args example_queries example_jobs 0%nat 0%nat 0%nat 1%nat 1%nat
           1%nat);
    vm_compute; reflexivity.
Defined.

(** ** The template and the environmental database *)

Section UnusedDatabases.

Context (rt : runtime) {W : Type} (h : handler W) (g : namespace).


End UnusedDatabases.


(** ** Index detection with several databases *)

(** C2: the claim holds where a database is checked alone, as in the
    pairing pipeline, and the loop of the monomer pipeline breaks it when
    several databases are in use.  On the files of [mixed_indexes] the
    reference database has no index file and the environmental database,
    checked after it, has its [.idx]; the caller passes [db_load_mode = 2].
    The claim asks for [_seq]/[_aln] on the reference database; the loop
    leaves the suffixes of the last database, so [expandaln] is started on
    [uniref30_2302_db.idx] for both sub-databases, with [db_load_mode] 0.
    The pairing pipeline on the same files selects [_seq] for the reference
    database. *)
Theorem last_database_decides :
  is_file mixed_indexes "/db/uniref30_2302_db.idx" 0%nat = false
  /\ is_file mixed_indexes "/db/uniref30_2302_db.idx.index" 0%nat = false
  /\ is_file mixed_indexes "/db/colabfold_envdb_202108_db.idx" 0%nat = true
  /\ m_db_load_mode example_monomer_args = PyInt 2
  /\ fst (fst (monomer_prelude example_runtime mixed_indexes (with_toggles false true)
                 example_monomer_args 0%nat))
     = inr {| align_eval := PyInt 10; qsc := PyFloat 0.8; max_accept := PyInt 100000;
              db_load_mode := PyInt 0; dbSuffix1 := Some ".idx"; dbSuffix2 := Some ".idx" |}
  /\ spawned (snd (mmseqs_search_monomer example_runtime mixed_indexes
                     (with_toggles false true) example_monomer_args 0%nat)) !! 3%nat
     = Some ["mmseqs"; "expandaln"; "/out/qdb"; "/db/uniref30_2302_db.idx"; "/out/res";
             "/db/uniref30_2302_db.idx"; "/out/res_exp"; "--db-load-mode"; "0";
             "--threads"; "32"; "--expansion-mode"; "0"; "-e"; "inf";
             "--expand-filter-clusters"; "True"; "--max-seq-id"; "0.95"]
  /\ spawned (snd (mmseqs_search_pair example_runtime mixed_indexes example_pair_args
                     0%nat)) !! 1%nat
     = Some ["mmseqs"; "align"; "/out/qdb"; "/db/uniref30_2302_db_seq";
             "/out/res_exp_realign_pair"; "/out/res_exp_realign_pair_bt";
             "--db-load-mode"; "0"; "-e"; "inf"; "-a"; "--threads"; "64"].
Proof. vm_compute. by split_and!. Qed.

(** ** Removals in the monomer pipeline *)

Section Removals.

Context (rt : runtime) {W : Type} (h : handler W) (g : namespace).

Notation "x <- m ;; k" := (bind m (fun x => k))
  (at level 100, m at next level, right associativity).
Notation "m ;; k" := (bind m (fun _ => k))
  (at level 100, right associativity).

Lemma for_each_app {A} (l1 l2 : list A) (body : A -> @M W unit) (w : W) :
  for_each (l1 ++ l2) body w = (for_each l1 body ;; for_each l2 body) w.
Proof.
  revert w. induction l1 as [|x l1 IH]; intros w; cbn [for_each app].
  - by rewrite bind_ret_l.
  - rewrite bind_assoc. apply bind_ext. intros _ w'. apply IH.
Qed.

(** An invocation that returns has started its command line, and nothing
    else. *)
Lemma run_step_ok_spawned mmseqs c (w w' : W) t :
  run_step h mmseqs c w = (inr tt, w', t) -> spawned t = [mmseqs :: step_params c].
Proof.
  destruct c as [params|params];
    cbv [run_step run_mmseqs subprocess_check_call subprocess_run bind log_info
         ok err ret raise];
    destruct (spawn h (mmseqs :: params) w) as [[e|rc] w1]; try done.
  - destruct (rc =? 0); [|done]. by intros [= <- <-].
  - by intros [= <- <-].
Qed.

Lemma run_steps_ok_spawned mmseqs cs : forall (w w' : W) t,
  run_steps h mmseqs cs w = (inr tt, w', t) -> spawned t = command_lines mmseqs cs.
Proof.
  unfold run_steps. induction cs as [|c cs IH]; intros w w' t; cbn [for_each].
  - by intros [= <- <-].
  - destruct (run_step h mmseqs c w) as [[[e|[]] w1] t1] eqn:Hc.
    { by rewrite (bind_err _ _ _ _ _ _ Hc). }
    rewrite (bind_ok _ _ _ _ _ _ Hc).
    destruct (for_each cs (run_step h mmseqs) w1) as [[r w2] t2] eqn:Hcs.
    intros [= -> -> <-].
    by rewrite spawned_app, (run_step_ok_spawned _ _ _ _ _ Hc), (IH _ _ _ Hcs).
Qed.

(** A listed file that cannot be unlinked ends the teardown, wherever it
    stands in the listing. *)
Lemma teardown_unlink_fails a (w w1 w2 : W) done f rest e :
  glob h (m_base a) "prof_res*" w = done ++ f :: rest ->
  for_each done (path_unlink h) w = (inr tt, w1, map EvUnlink done) ->
  unlink h f w1 = (Some e, w2) ->
  monomer_teardown rt h g a w
  = (inl e, w2, EvGlob (m_base a) "prof_res*" :: map EvUnlink done ++ [EvUnlink f]).
Proof.
  intros Hglob Hdone Hf. unfold monomer_teardown.
  rewrite (bind_ok _ _ _ _ _ _
             (eq_refl : path_glob h (m_base a) "prof_res*" w
                        = (inr (glob h (m_base a) "prof_res*" w), w,
                           [EvGlob (m_base a) "prof_res*"]))).
  rewrite Hglob.
  assert (for_each (done ++ f :: rest) (path_unlink h) w
          = (inl e, w2, map EvUnlink done ++ [EvUnlink f])) as Hfiles.
  { rewrite for_each_app, (bind_ok _ _ _ _ _ _ Hdone). cbn [for_each].
    assert (path_unlink h f w1 = (inl e, w2, [EvUnlink f])) as Hun.
    { unfold path_unlink, lift_file_op. by rewrite Hf. }
    by rewrite (bind_err _ _ _ _ _ _ Hun). }
  by rewrite (bind_err _ _ _ _ _ _ Hfiles).
Qed.

(** C7, amended: in a run of the monomer pipeline the removals of [res_exp]
    and [res] through [subprocess.run] are the eighth and ninth
    invocations, right after result2msa and before the final mvdb and
    unpackdb; whatever their exit statuses, nothing is logged for them,
    nothing is raised, and the run goes on with mvdb, unpackdb and the three
    checked removals.  The [prof_res*] files are unlinked only after all
    fourteen invocations, unpackdb among them, have been started and have
    returned; an [unlink] that fails, on whichever of the listed files,
    ends the whole run with its exception. *)
Theorem best_effort_removals_precede_unpack :
  (forall a fr s1 s2,
     monomer_calls rt a fr s1 s2
     = [ Checked (search_params rt a fr); Checked (mvdb_profile_params rt a);
         Checked (lndb_params rt a); Checked (expandaln_params rt a fr s1 s2);
         Checked (align_params rt a fr s1); Checked (filterresult_params rt a fr s1);
         Checked (result2msa_params rt a fr s1) ]
       ++ [ Unchecked (rmdb_params rt (m_base a) "res_exp");
            Unchecked (rmdb_params rt (m_base a) "res") ]
       ++ [ Checked (mvdb_final_params rt a); Checked (unpackdb_params rt a);
            Checked (rmdb_params rt (m_base a) "final.a3m");
            Checked (rmdb_params rt (m_base a) "uniref.a3m");
            Checked (rmdb_params rt (m_base a) "res") ])
  /\ (forall a fr s1 s2 (w w0 w1 w2 w3 : W) t0 t1 rc1 rc2,
     monomer_prelude rt h g a w = (inr fr, w0, t0) ->
     dbSuffix1 fr = Some s1 -> dbSuffix2 fr = Some s2 ->
     run_steps h (m_mmseqs a) (take 7 (monomer_calls rt a fr s1 s2)) w0
       = (inr tt, w1, t1) ->
     spawn h (m_mmseqs a :: rmdb_params rt (m_base a) "res_exp") w1 = (inr rc1, w2) ->
     spawn h (m_mmseqs a :: rmdb_params rt (m_base a) "res") w2 = (inr rc2, w3) ->
     mmseqs_search_monomer rt h g a w
     = (let '(r, w5, t5) :=
          (run_steps h (m_mmseqs a) (drop 9 (monomer_calls rt a fr s1 s2)) ;;
           monomer_teardown rt h g a) w3 in
        (r, w5,
         t0 ++ t1 ++ [EvSpawn (m_mmseqs a :: rmdb_params rt (m_base a) "res_exp");
                      EvSpawn (m_mmseqs a :: rmdb_params rt (m_base a) "res")] ++ t5)))
  /\ (forall a fr s1 s2 (w w0 w4 w5 w6 : W) t0 t done f rest e,
     monomer_prelude rt h g a w = (inr fr, w0, t0) ->
     dbSuffix1 fr = Some s1 -> dbSuffix2 fr = Some s2 ->
     run_steps h (m_mmseqs a) (monomer_calls rt a fr s1 s2) w0 = (inr tt, w4, t) ->
     glob h (m_base a) "prof_res*" w4 = done ++ f :: rest ->
     for_each done (path_unlink h) w4 = (inr tt, w5, map EvUnlink done) ->
     unlink h f w5 = (Some e, w6) ->
     mmseqs_search_monomer rt h g a w
     = (inl e, w6,
        t0 ++ t ++ EvGlob (m_base a) "prof_res*" :: map EvUnlink done ++ [EvUnlink f])
     /\ spawned t = monomer_commands rt a fr s1 s2).
Proof.
  split_and!.
  - reflexivity.
  - intros a fr s1 s2 w w0 w1 w2 w3 t0 t1 rc1 rc2 Hprel H1 H2 Hpre Hsp1 Hsp2.
    unfold mmseqs_search_monomer. rewrite (bind_ok _ _ _ _ _ _ Hprel).
    rewrite (bind_ext_l _ _ _ _ (fun w' => monomer_stages_calls rt h a fr s1 s2 w' H1 H2)).
    set (mid := [ Unchecked (rmdb_params rt (m_base a) "res_exp");
                  Unchecked (rmdb_params rt (m_base a) "res") ]).
    change (monomer_calls rt a fr s1 s2)
      with (take 7 (monomer_calls rt a fr s1 s2)
            ++ mid ++ drop 9 (monomer_calls rt a fr s1 s2)) at 1.
    rewrite <- (run_steps_seq h _ _ _ (fun _ => monomer_teardown rt h g a)).
    rewrite (bind_ok _ _ _ _ _ _ Hpre).
    rewrite <- (run_steps_seq h _ _ _ (fun _ => monomer_teardown rt h g a)).
    assert (run_steps h (m_mmseqs a) mid w1
            = (inr tt, w3,
               [EvSpawn (m_mmseqs a :: rmdb_params rt (m_base a) "res_exp");
                EvSpawn (m_mmseqs a :: rmdb_params rt (m_base a) "res")])) as Hmid.
    { unfold run_steps, mid. cbn [for_each].
      rewrite (bind_ok _ _ _ _ _ _ (run_step_unchecked h _ _ _ _ _ Hsp1)).
      rewrite (bind_ok _ _ _ _ _ _ (run_step_unchecked h _ _ _ _ _ Hsp2)).
      reflexivity. }
    rewrite (bind_ok _ _ _ _ _ _ Hmid).
    by destruct (bind _ _ w3) as [[r w5] t5].
  - intros a fr s1 s2 w w0 w4 w5 w6 t0 t done f rest e Hprel H1 H2 Hrun Hglob Hdone Hf.
    split; [|by rewrite (run_steps_ok_spawned _ _ _ _ _ Hrun)].
    unfold mmseqs_search_monomer. rewrite (bind_ok _ _ _ _ _ _ Hprel).
    rewrite (bind_ext_l _ _ _ _ (fun w' => monomer_stages_calls rt h a fr s1 s2 w' H1 H2)).
    rewrite (bind_ok _ _ _ _ _ _ Hrun).
    by rewrite (teardown_unlink_fails a w4 w5 w6 done f rest e Hglob Hdone Hf).
Qed.

End Removals.

(** C7 as stated fails: every process ends with status 0, the unpacked
    files exist, and the one scratch file cannot be unlinked; the
    exception of [unlink] ends the run, and the trace holds no log line
    about it.  The removals of [res_exp] and [res] are the eighth and
    ninth processes, before mvdb and unpackdb. *)
Lemma scratch_removal_failure_propagates :
  fst (fst (mmseqs_search_monomer example_runtime scratch_locked (with_toggles false false)
              example_monomer_args 0%nat))
  = inl (OSError "cannot remove /out/prof_res")
  /\ last (snd (mmseqs_search_monomer example_runtime scratch_locked
                  (with_toggles false false) example_monomer_args 0%nat))
     = Some (EvUnlink "/out/prof_res")
  /\ spawned (snd (mmseqs_search_monomer example_runtime scratch_locked
                     (with_toggles false false) example_monomer_args 0%nat)) !! 7%nat
     = Some ["mmseqs"; "rmdb"; "/out/res_exp"]
  /\ spawned (snd (mmseqs_search_monomer example_runtime scratch_locked
                     (with_toggles false false) example_monomer_args 0%nat)) !! 8%nat
     = Some ["mmseqs"; "rmdb"; "/out/res"]
  /\ spawned (snd (mmseqs_search_monomer example_runtime scratch_locked
                     (with_toggles false false) example_monomer_args 0%nat)) !! 10%nat
     = Some ["mmseqs"; "unpackdb"; "/out/final.a3m"; "/out"; "--unpack-name-mode"; "0";
             "--unpack-suffix"; ".a3m"].
Proof. vm_compute. by split_and!. Qed.

(** The second of two scratch files cannot be unlinked: the run ends there,
    after its fourteen processes and the unlinking of the first file. *)
Lemma best_effort_removals_precede_unpack_witness :
  mmseqs_search_monomer example_runtime second_scratch_locked (with_toggles false false)
    example_monomer_args 0%nat
  = (inl (OSError "cannot remove /out/prof_res_h"), 14%nat,
     snd (monomer_prelude example_runtime second_scratch_locked (with_toggles false false)
            example_monomer_args 0%nat)
     ++ snd (run_steps second_scratch_locked "mmseqs"
               (monomer_calls example_runtime example_monomer_args example_frame
                  ".idx" ".idx") 0%nat)
     ++ EvGlob "/out" "prof_res*"
        :: map EvUnlink ["/out/prof_res"] ++ [EvUnlink "/out/prof_res_h"])
  /\ spawned (snd (run_steps second_scratch_locked "mmseqs"
                     (monomer_calls example_runtime example_monomer_args example_frame
                        ".idx" ".idx") 0%nat))
     = monomer_commands example_runtime example_monomer_args example_frame ".idx" ".idx".
Proof.
  apply (proj2 (proj2 (best_effort_removals_precede_unpack example_runtime
                         second_scratch_locked (with_toggles false false)))
           example_monomer_args example_frame ".idx" ".idx" 0%nat 0%nat 14%nat 14%nat
           14%nat _ _ ["/out/prof_res"] "/out/prof_res_h" []);
    vm_compute; reflexivity.
Defined.

(** ** The pairing parameters in the whole pipeline *)

Section Pairing.

Context (rt : runtime) {W : Type} (h : handler W).

Notation "x <- m ;; k" := (bind m (fun x => k))
  (at level 100, m at next level, right associativity).
Notation "m ;; k" := (bind m (fun _ => k))
  (at level 100, right associativity).

(** The pairing pipeline is its database check, then its fourteen
    invocations, then the removal of [tmp]. *)
Lemma pair_pipeline_shape a (w : W) :
  mmseqs_search_pair rt h a w
  = (check_db rt h (p_dbbase a) (p_uniref_db a) (pair_initial_frame a) ;;
     run_steps h (p_mmseqs a) (pair_invocations rt h a w) ;;
     shutil_rmtree h (joinpath rt (p_base a) "tmp")) w.
Proof.
  destruct (has_dbtype rt h (p_dbbase a) w (p_uniref_db a)) eqn:Hdb.
  - destruct (check_db_found rt h (p_dbbase a) (p_uniref_db a) (pair_initial_frame a)
                w Hdb) as (t0 & Hrun & _).
    unfold mmseqs_search_pair. rewrite !(bind_ok _ _ _ _ _ _ Hrun).
    fold (pair_frame rt h a w).
    assert (dbSuffix1 (pair_frame rt h a w) = Some (pair_suffix rt h a w)) as Hs.
    { unfold pair_frame, pair_suffix.
      by destruct (lacks_index rt h (p_dbbase a) w (p_uniref_db a)). }
    assert ((pair_stages rt h a (pair_frame rt h a w) ;; pair_cleanup rt h a) w
            = (run_steps h (p_mmseqs a) (pair_invocations rt h a w) ;;
               shutil_rmtree h (joinpath rt (p_base a) "tmp")) w) as ->; [|done].
    unfold pair_invocations.
    rewrite <- (run_steps_seq h _ _ _
                  (fun _ => shutil_rmtree h (joinpath rt (p_base a) "tmp"))).
    rewrite (bind_ext_l _ _ _ _ (fun w' => pair_stages_calls rt h a _ _ w' Hs)).
    apply bind_ext. intros _ w'. apply pair_cleanup_calls_run.
  - unfold mmseqs_search_pair.
    by rewrite !(bind_err _ _ _ _ _ _ (check_db_missing rt h _ _ _ _ Hdb)).
Qed.

(** C9, amended: the pairing pipeline runs [pairaln], [align], [pairaln]
    in this order; the [align] invocation between the two passes carries
    the unbounded cutoff [-e inf]; both [pairaln] passes carry
    [--pairing-mode] followed by [str(pairing_strategy)], whatever that
    value is, and no e-value option.  The pipeline makes no other use of
    [pairing_strategy]: a run is its database check, its fourteen
    invocations and the removal of [tmp], and with another strategy the
    check, the program, the directory removed and twelve of the
    invocations are the same, the two [pairaln] invocations differing in
    the argument after [--pairing-mode] alone. *)
Theorem pairing_evalue_and_strategy (a : pair_args) (fr : frame) (s1 : string) :
  take 3 (pair_calls rt a fr s1)
  = [ Checked (pairaln1_params rt a fr); Checked (pair_align_params rt a fr s1);
      Checked (pairaln2_params rt a fr) ]
  /\ drop 5 (pair_align_params rt a fr s1)
     = [ "--db-load-mode"; py_str rt (db_load_mode fr); "-e"; "inf"; "-a"; "--threads";
         py_str rt (p_threads a) ]
  /\ drop 5 (pairaln1_params rt a fr)
     = [ "--db-load-mode"; py_str rt (db_load_mode fr); "--pairing-mode";
         py_str rt (p_pairing_strategy a); "--pairing-dummy-mode"; "0"; "--threads";
         py_str rt (p_threads a) ]
  /\ drop 5 (pairaln2_params rt a fr)
     = [ "--db-load-mode"; py_str rt (db_load_mode fr); "--pairing-mode";
         py_str rt (p_pairing_strategy a); "--pairing-dummy-mode"; "1"; "--threads";
         py_str rt (p_threads a) ]
  /\ (forall w : W,
        pair_stages rt h a (set_index_absent fr) w
        = run_steps h (p_mmseqs a) (pair_calls rt a (set_index_absent fr) "_seq") w)
  /\ (forall w : W,
        pair_stages rt h a (set_index_present fr) w
        = run_steps h (p_mmseqs a) (pair_calls rt a (set_index_present fr) ".idx") w)
  /\ (forall (v : pyval) (w : W),
        mmseqs_search_pair rt h (with_pairing_strategy a v) w
        = (check_db rt h (p_dbbase a) (p_uniref_db a) (pair_initial_frame a) ;;
           run_steps h (p_mmseqs a) (pair_invocations rt h (with_pairing_strategy a v) w) ;;
           shutil_rmtree h (joinpath rt (p_base a) "tmp")) w)
  /\ (forall (v : pyval) (w : W),
        pair_invocations rt h (with_pairing_strategy a v) w
        = <[0%nat := Checked (<[8%nat := py_str rt v]>
                                (pairaln1_params rt a (pair_frame rt h a w)))]>
            (<[2%nat := Checked (<[8%nat := py_str rt v]>
                                   (pairaln2_params rt a (pair_frame rt h a w)))]>
               (pair_invocations rt h a w))).
Proof.
  split_and!; try reflexivity.
  - intros. by apply pair_stages_calls.
  - intros. by apply pair_stages_calls.
  - intros v w. apply (pair_pipeline_shape (with_pairing_strategy a v) w).
Qed.

End Pairing.
